(** * LinkedIn post generator: the search / summarise / post pipeline of app.py

    A shallow embedding of [search_topic], [_call_groq_api],
    [generate_linkedin_post] and [process_topic], and the properties the
    specification states about them.

    Conventions of the embedding.
    - A Python [str] is a Rocq [string] holding its UTF-8 bytes.
    - A decoded JSON document is a value of [json]; Python's dynamic typing
      is kept, so an operation on a value of the wrong type raises.
    - The two HTTP providers are an environment [Env] that answers each
      request from the request and the history of the run.
    - An [async def] runs, inside one invocation, as sequential code: it is a
      computation in the monad [M], which threads the history of the run
      (the trace) and may raise. *)

From Stdlib Require Import ZArith List Bool Lia.
From Stdlib Require Import Strings.String Strings.Ascii Numbers.DecimalString.
Import ListNotations.

Set Warnings "-register-all".

Local Open Scope list_scope.
Local Open Scope string_scope.

(* ================================================================== *)
(** ** Python strings *)

Module PyStr.

Definition chr (n : nat) : string := String (ascii_of_nat n) EmptyString.

(** The characters a Rocq string literal cannot hold. *)
Definition nl : string := chr 10.
Definition dq : string := chr 34.

(** [str(n)] for an [int]. *)
Definition str_of_int (z : Z) : string := NilEmpty.string_of_int (Z.to_int z).

(** [sub in s] on the bytes; for well-formed UTF-8 this is [sub in s] on the
    code points. *)
Fixpoint contains_b (sub s : string) : bool :=
  if prefix sub s then true
  else match s with
       | EmptyString => false
       | String _ r => contains_b sub r
       end.

(** The same relation as a proposition: [sub] occurs verbatim inside [s]. *)
Definition contains (sub s : string) : Prop :=
  exists before after, s = before ++ sub ++ after.

Definition starts_with (pre s : string) : Prop :=
  exists rest, s = pre ++ rest.

(** A UTF-8 continuation byte, 10xxxxxx. *)
Definition is_continuation (c : ascii) : bool :=
  let n := nat_of_ascii c in (128 <=? n)%nat && (n <? 192)%nat.

(** The code points of a string, each as the string of its bytes: what
    iterating over a [str] yields. *)
Fixpoint chars (s : string) : list string :=
  match s with
  | EmptyString => []
  | String c r =>
      match r with
      | String c' _ =>
          if is_continuation c' then
            match chars r with
            | ch :: chs => String c ch :: chs
            | [] => [String c EmptyString]
            end
          else String c EmptyString :: chars r
      | EmptyString => [String c EmptyString]
      end
  end.

Fixpoint rev (s : string) : string :=
  match s with
  | EmptyString => EmptyString
  | String c r => rev r ++ String c EmptyString
  end.

Fixpoint drop (n : nat) (s : string) : string :=
  match n, s with
  | O, _ => s
  | S n', String _ r => drop n' r
  | S _, EmptyString => EmptyString
  end.

Definition bytes (l : list nat) : string :=
  fold_right (fun n s => String (ascii_of_nat n) s) EmptyString l.

(** The characters [str.strip()] removes: those with [str.isspace()] true.
    U+0009..U+000D, U+001C..U+001F, U+0020, U+0085, U+00A0, U+1680,
    U+2000..U+200A, U+2028, U+2029, U+202F, U+205F, U+3000, in UTF-8. *)
Definition whitespace : list string :=
  map bytes
    [ [9]; [10]; [11]; [12]; [13]; [28]; [29]; [30]; [31]; [32];
      [194; 133]; [194; 160]; [225; 154; 128];
      [226; 128; 128]; [226; 128; 129]; [226; 128; 130]; [226; 128; 131];
      [226; 128; 132]; [226; 128; 133]; [226; 128; 134]; [226; 128; 135];
      [226; 128; 136]; [226; 128; 137]; [226; 128; 138];
      [226; 128; 168]; [226; 128; 169]; [226; 128; 175];
      [226; 129; 159]; [227; 128; 128] ].

(** Removes one leading whitespace character, if there is one. *)
Fixpoint drop_one (ws : list string) (s : string) : option string :=
  match ws with
  | [] => None
  | w :: ws' => if prefix w s then Some (drop (length w) s) else drop_one ws' s
  end.

Fixpoint lstrip_loop (fuel : nat) (ws : list string) (s : string) : string :=
  match fuel with
  | O => s
  | S fuel' =>
      match drop_one ws s with
      | Some r => lstrip_loop fuel' ws r
      | None => s
      end
  end.

(** [s.lstrip()]: every step removes at least one byte, so [length s] steps
    are enough. *)
Definition lstrip (s : string) : string := lstrip_loop (length s) whitespace s.

(** [s.rstrip()]: the same scan from the right end. *)
Definition rstrip (s : string) : string :=
  rev (lstrip_loop (length s) (map rev whitespace) (rev s)).

(** [s.strip()]. *)
Definition strip (s : string) : string := rstrip (lstrip s).

(** A string made of whitespace characters only (the empty one included). *)
Definition all_whitespace (s : string) : Prop :=
  exists cs, Forall (fun c => In c whitespace) cs /\ s = concat EmptyString cs.

End PyStr.

(* ================================================================== *)
(** ** Python values, exceptions and the dynamically typed operations *)

Module Py.

(** What [response.json()] can produce.  A [float] is carried by its
    [repr]. *)
Inductive json : Type :=
  | JNull
  | JBool (b : bool)
  | JInt (n : Z)
  | JFloat (repr : string)
  | JStr (s : string)
  | JArr (items : list json)
  | JObj (fields : list (string * json)).

(** A Python [dict] with [str] keys, in insertion order. *)
Definition dict : Type := list (string * json).

Fixpoint lookup (k : string) (d : dict) : option json :=
  match d with
  | [] => None
  | (k', v) :: rest => if String.eqb k k' then Some v else lookup k rest
  end.

Definition keys (d : dict) : list string := map fst d.

(** The exception classes the pipeline can meet.  [TransportError] stands
    for the errors of the HTTP client (connection, timeout, ...). *)
Inductive exn_class : Type :=
  | PlainException
  | ValueError
  | JSONDecodeError
  | KeyError
  | IndexError
  | TypeError
  | AttributeError
  | TransportError.

(** [issubclass(c, Exception)]: every class above derives from
    [Exception]. *)
Definition is_Exception (c : exn_class) : bool :=
  match c with
  | PlainException | ValueError | JSONDecodeError | KeyError
  | IndexError | TypeError | AttributeError | TransportError => true
  end.

(** An exception object: its class and the text [str(e)] gives. *)
Record exn : Type := mk_exn { exn_cls : exn_class; exn_str : string }.

Inductive result (A : Type) : Type :=
  | Return (a : A)
  | Raise (e : exn).
Arguments Return {A} a.
Arguments Raise {A} e.

Definition rbind {A B : Type} (r : result A) (k : A -> result B) : result B :=
  match r with
  | Return a => k a
  | Raise e => Raise e
  end.

Fixpoint rmap {A B : Type} (f : A -> result B) (l : list A) : result (list B) :=
  match l with
  | [] => Return []
  | a :: rest =>
      rbind (f a) (fun b => rbind (rmap f rest) (fun bs => Return (b :: bs)))
  end.

Definition type_name (v : json) : string :=
  match v with
  | JNull => "NoneType"
  | JBool _ => "bool"
  | JInt _ => "int"
  | JFloat _ => "float"
  | JStr _ => "str"
  | JArr _ => "list"
  | JObj _ => "dict"
  end.

(** The texts of the interpreter's own errors are CPython 3.11's; no
    property below depends on their wording. *)
Definition not_subscriptable (v : json) : exn :=
  mk_exn TypeError ("'" ++ type_name v ++ "' object is not subscriptable").

Definition no_attribute (v : json) (attr : string) : exn :=
  mk_exn AttributeError
    ("'" ++ type_name v ++ "' object has no attribute '" ++ attr ++ "'").

(** [str(KeyError(k))] is [repr(k)]; the keys used are plain identifiers. *)
Definition key_error (k : string) : exn := mk_exn KeyError ("'" ++ k ++ "'").

(** [k in v] for a [str] k. *)
Definition contains_key (k : string) (v : json) : result bool :=
  match v with
  | JObj d => Return (match lookup k d with
                      | Some _ => true
                      | None => false
                      end)
  | JArr l =>
      Return (existsb (fun x => match x with
                                | JStr s => String.eqb s k
                                | _ => false
                                end) l)
  | JStr s => Return (PyStr.contains_b k s)
  | _ => Raise (mk_exn TypeError
                  ("argument of type '" ++ type_name v ++ "' is not iterable"))
  end.

(** [v[k]] for a [str] k. *)
Definition getitem_key (v : json) (k : string) : result json :=
  match v with
  | JObj d => match lookup k d with
              | Some x => Return x
              | None => Raise (key_error k)
              end
  | JArr _ =>
      Raise (mk_exn TypeError "list indices must be integers or slices, not str")
  | JStr _ =>
      Raise (mk_exn TypeError "string indices must be integers, not 'str'")
  | _ => Raise (not_subscriptable v)
  end.

(** [v[0]]. *)
Definition getitem_first (v : json) : result json :=
  match v with
  | JArr l => match l with
              | x :: _ => Return x
              | [] => Raise (mk_exn IndexError "list index out of range")
              end
  | JStr s => match PyStr.chars s with
              | c :: _ => Return (JStr c)
              | [] => Raise (mk_exn IndexError "string index out of range")
              end
  | JObj _ => Raise (mk_exn KeyError "0")
  | _ => Raise (not_subscriptable v)
  end.

(** How many elements [seq[:stop]] keeps of a sequence of [len] elements: a
    negative [stop] counts from the end. *)
Definition slice_count (len : nat) (stop : Z) : nat :=
  if (0 <=? stop)%Z then Nat.min len (Z.to_nat stop)
  else len - Z.to_nat (- stop).

(** The elements the loop [for x in v[:stop]] visits. *)
Definition slice_items (v : json) (stop : Z) : result (list json) :=
  match v with
  | JArr l => Return (firstn (slice_count (List.length l) stop) l)
  | JStr s =>
      let cs := PyStr.chars s in
      Return (map JStr (firstn (slice_count (List.length cs) stop) cs))
  | JObj _ => Raise (mk_exn TypeError "unhashable type: 'slice'")
  | _ => Raise (not_subscriptable v)
  end.

(** [v.get(k, default)]. *)
Definition dict_get (v : json) (k : string) (default : json) : result json :=
  match v with
  | JObj d => Return (match lookup k d with
                      | Some x => x
                      | None => default
                      end)
  | _ => Raise (no_attribute v "get")
  end.

(** [v.strip()]. *)
Definition str_strip (v : json) : result string :=
  match v with
  | JStr s => Return (PyStr.strip s)
  | _ => Raise (no_attribute v "strip")
  end.

(** [d[k]] on a [dict]. *)
Definition dict_item (d : dict) (k : string) : result json :=
  match lookup k d with
  | Some x => Return x
  | None => Raise (key_error k)
  end.

End Py.

(* ================================================================== *)
(** ** The world outside: configuration, HTTP providers, history *)

Module World.
Import Py.

(** The module-level settings, read once from the process environment.
    [os.getenv] gives [None] or a [str]; [MAX_SEARCH_RESULTS] is whatever
    [int(...)] made of the variable, of either sign. *)
Record Config : Type := mk_config {
  SERPAPI_KEY : option string;
  GROQ_API_KEY : option string;
  MAX_SEARCH_RESULTS : Z;
  GROQ_MODEL : string
}.

(** [client.get(url, params=...)] under a client with the given timeout in
    seconds. *)
Record get_request : Type := mk_get {
  get_url : string;
  get_params : list (string * json);
  get_timeout : Z
}.

(** [client.post(url, headers=..., json=...)]. *)
Record post_request : Type := mk_post {
  post_url : string;
  post_headers : list (string * string);
  post_json : json;
  post_timeout : Z
}.

(** An HTTP response: [status_code], [text], and what [json()] does on it,
    the decoded document or the message of the decoder's error. *)
Record response : Type := mk_response {
  status_code : Z;
  text : string;
  decoded : string + json
}.

(** A request either fails in the client (no response: connection error,
    timeout) or is answered. *)
Inductive outcome : Type :=
  | Failed (message : string)
  | Answered (r : response).

(** What one invocation does, as seen from outside, in order.  The calls
    and returns of the two client functions are recorded beside the
    requests themselves; [Progress] is the advisory callback, its fraction
    in percent. *)
Inductive event : Type :=
  | Progress (percent : Z) (desc : string)
  | SearchCall (topic : string)
  | HttpGet (rq : get_request)
  | SearchReturn (results : list dict)
  | CompletionCall (prompt : string)
  | HttpPost (rq : post_request)
  | CompletionReturn (content : string).

Definition trace : Type := list event.

(** The providers.  An answer may depend on everything that happened so far
    in the run, so the same request can be answered differently twice. *)
Record Env : Type := mk_env {
  serve_get : trace -> get_request -> outcome;
  serve_post : trace -> post_request -> outcome
}.

(** Computations: read the history, extend it, return or raise. *)
Definition M (A : Type) : Type := trace -> result A * trace.

Definition ret {A : Type} (a : A) : M A := fun t => (Return a, t).

Definition raise {A : Type} (e : exn) : M A := fun t => (Raise e, t).

Definition bind {A B : Type} (m : M A) (k : A -> M B) : M B :=
  fun t => match m t with
           | (Return a, t') => k a t'
           | (Raise e, t') => (Raise e, t')
           end.

Definition lift {A : Type} (r : result A) : M A := fun t => (r, t).

Definition emit (e : event) : M unit := fun t => (Return tt, (t ++ [e])%list).

(** [try: body except Exception as e: handler(e)]. *)
Definition try_except {A : Type} (body : M A) (handler : exn -> M A) : M A :=
  fun t => match body t with
           | (Return a, t') => (Return a, t')
           | (Raise e, t') =>
               if is_Exception (exn_cls e) then handler e t' else (Raise e, t')
           end.

Definition is_completion_call (e : event) : bool :=
  match e with CompletionCall _ => true | _ => false end.

Definition is_http_post (e : event) : bool :=
  match e with HttpPost _ => true | _ => false end.

End World.

Declare Scope py_scope.
Delimit Scope py_scope with py.
Notation "x <- m ;; k" := (World.bind m (fun x => k))
  (at level 61, m at next level, right associativity) : py_scope.
Notation "m ;;; k" := (World.bind m (fun _ => k))
  (at level 61, right associativity) : py_scope.

(* ================================================================== *)
(** ** The prompts of [generate_linkedin_post] *)

Module Prompt.
Import PyStr Py.

(** The style rules of the post prompt, from the line after
    [Follow these style guidelines:] to its last rule, one string per
    line. *)
Definition style_guidelines : list string :=
  [
    "    🧠 You are Prerit Singh — a creative AI enthusiast, builder, and storyteller.";
    "Your posts feel like:";
    "Talking to a sharp, chilled-out friend";
    "A human behind the tech, not a robot explaining tech";
    "Sharing real-world experiments with excitement, not just dry facts";
    "✍️ Writing Style Rules";
    "Tone";
    "Friendly, approachable, and relatable";
    "Confident but grounded (not boasting)";
    "Curious and playful (celebrating discoveries)";
    "Slightly witty and humorous where it fits naturally";
    "Honest reactions (" ++ dq ++ "even I was shocked" ++ dq ++ ", " ++ dq ++ "felt like magic" ++ dq ++ ", " ++ dq ++ "saved me weeks" ++ dq ++ ")";
    "Sentence Behavior";
    "Mix short punchy sentences and slightly longer story sentences";
    "Avoid complex or heavy words — talk in everyday English";
    "Use occasional slang and desi-English flavor naturally (" ++ dq ++ "bhai" ++ dq ++ ", " ++ dq ++ "bro" ++ dq ++ ", " ++ dq ++ "full time-waste" ++ dq ++ ", " ++ dq ++ "no kidding" ++ dq ++ ")";
    "Speak like you're narrating an interesting story to a friend over chai";
    "Active voice always:";
    "NOT " ++ dq ++ "It was built by me" ++ dq;
    "YES " ++ dq ++ "I built it" ++ dq;
    "Emotional Behavior";
    "Wonder, excitement, playfulness";
    "Mild self-deprecating humor sometimes (" ++ dq ++ "pizza didn't even show up yet, bro" ++ dq ++ ")";
    "Human imperfection is okay (showing surprise, struggle, trial and error)";
    "Flow and Formatting";
    "1. Hook:";
    "1 or 2 lines";
    "Must grab attention instantly";
    "Methods:";
    "Surprising statement";
    "Teasing curiosity";
    "Personal excitement";
    "Example Hooks:";
    dq ++ "Built a small AI tool — but it feels like magic." ++ dq;
    dq ++ "So I was doing some market research... and AI just blew my mind." ++ dq;
    "2. Story/Body:";
    "Tell what you built/tested/discovered";
    "Keep paras max 1-3 sentences long";
    "Use arrows (→), bullets (•), or short lists to break information";
    "Include " ++ dq ++ "how you did it" ++ dq ++ " in simple steps";
    "Highlight the “magic moment” (the wow factor)";
    "Examples of transitional words you use:";
    dq ++ "So I thought —" ++ dq;
    dq ++ "Here’s what happened —" ++ dq;
    dq ++ "The process? Surprisingly simple!" ++ dq;
    "3. Key Outcomes:";
    "After explaining, list what the audience will get or learn";
    "Make it visual with arrows (→) or bullets";
    "Example:";
    "→ Upload your meal photo";
    "→ Instantly get calories and macros";
    "→ Works even for Indian dishes";
    "4. Personal Reflection:";
    "Always include your honest reaction";
    "Examples:";
    dq ++ "Works surprisingly well (even I was shocked)" ++ dq;
    dq ++ "AI didn’t just help — it crushed it." ++ dq;
    dq ++ "Honestly, this saved me weeks." ++ dq;
    "5. Call-to-Action (CTA):";
    "Invite conversation or opinions, NOT hard selling";
    "Example CTAs:";
    dq ++ "Would you use something like this?" ++ dq;
    dq ++ "Curious to know your thoughts." ++ dq;
    dq ++ "Hit me up in the comments if you want the prompt!" ++ dq;
    "✅ CTA tone must be casual and welcoming, not salesy.";
    "Visual Style";
    "Break paragraphs after every 1-2 sentences";
    "Make it breathable and easy to skim";
    "Use emojis occasionally (🍕🚀🔥), but only if it adds personality";
    "No heavy decoration. Keep it clean and airy.";
    "Hashtags";
    "Only at the end";
    "5–7 natural hashtags based on post topic";
    "Examples:";
    "#AI #TechInnovation #OpenSource #BrandStrategy #CreativeTech #Innovation";
    "🎯 Content Topics That Fit Prerit’s Style:";
    "Real AI experiments (even small ones)";
    "Discovering or comparing AI models/tools";
    "How AI made everyday work faster/easier/more fun";
    "Bridging personal life moments (pizza, Zoom chaos) with tech learnings";
    "Storytelling about solving problems with creativity + AI";
    "Friendly how-to guides (light style, not heavy teaching)";
    "🔥 Personality Extras (Optional Flavors to Add)";
    "✅ Use small reactions:";
    dq ++ "felt like magic" ++ dq;
    dq ++ "no kidding" ++ dq;
    dq ++ "bam — it’s done" ++ dq;
    dq ++ "blew me away" ++ dq;
    "✅ Use cultural metaphors:";
    dq ++ "full time-waste, bhai" ++ dq;
    dq ++ "while my chai was still brewing" ++ dq;
    dq ++ "before the pizza even arrived" ++ dq;
    "✅ Occasional casual audience references:";
    dq ++ "bro," ++ dq ++ " " ++ dq ++ "bhai," ++ dq ++ " " ++ dq ++ "you know the vibe," ++ dq ++ " " ++ dq ++ "trust me," ++ dq ++ " " ++ dq ++ "hands down" ++ dq;
    "✅ Fun closing lines:";
    dq ++ "Chalo, now back to building!" ++ dq;
    dq ++ "Ready to see the magic?" ++ dq;
    dq ++ "This AI thing’s just getting started!" ++ dq;
    "✅ Reminder for AI: The post must feel human, fun, inspiring, and useful.";
    "It must sound like Prerit Singh talking — not a formal LinkedIn MBA consultant."
  ].

(** The first f-string, with [{topic}] and [{context}] filled in. *)
Definition summary_prompt (topic context : string) : string :=
  concat nl
    [ EmptyString;
      "    You are a helpful research assistant. Summarize the following search results about " ++ dq ++ topic ++ dq ++ " ";
      "    in a clear, comprehensive way that captures the key information. Focus on recent trends, ";
      "    statistics, expert opinions, and noteworthy developments.";
      "    SEARCH RESULTS:";
      "    " ++ context;
      "    ";
      "    Summary:";
      "    " ].

(** The second f-string, with [{topic}] and [{summary}] filled in: the lines
    before the style rules, the rules, the lines after them. *)
Definition post_opening (topic summary : string) : list string :=
  [ EmptyString;
    "    You're an expert LinkedIn content writer. Write an engaging LinkedIn post about " ++ dq ++ topic ++ dq ++ " ";
    "    based on the following research summary:";
    "    ";
    "    RESEARCH SUMMARY:";
    "    " ++ summary;
    "    ";
    "    Follow these style guidelines:" ].

Definition post_closing : list string :=
  [ "    ";
    "    LinkedIn Post:";
    "    " ].

Definition post_prompt (topic summary : string) : string :=
  concat nl
    (List.app (post_opening topic summary)
       (List.app style_guidelines post_closing)).

End Prompt.

(* ================================================================== *)
(** ** The program *)

Module Pipeline.
Import PyStr Py World Prompt.
Local Open Scope py_scope.

Section Program.

(** [str(v)] for a value that is not a [str] ([None], [12], [[1, 2]], ...),
    as an f-string renders it; the interpreter's, left open here. *)
Variable render : json -> string.

Variable cfg : Config.
Variable env : Env.

(** [f"{v}"]. *)
Definition format_value (v : json) : string :=
  match v with
  | JStr s => s
  | _ => render v
  end.

(** [if not KEY: raise ValueError(msg)]: [None] and the empty string are
    both falsy. *)
Definition require_key (key : option string) (msg : string) : M string :=
  match key with
  | Some k =>
      if String.eqb k EmptyString then raise (mk_exn ValueError msg) else ret k
  | None => raise (mk_exn ValueError msg)
  end.

Definition client_get (rq : get_request) : M response :=
  fun t =>
    match serve_get env t rq with
    | Answered r => (Return r, (t ++ [HttpGet rq])%list)
    | Failed msg => (Raise (mk_exn TransportError msg), (t ++ [HttpGet rq])%list)
    end.

Definition client_post (rq : post_request) : M response :=
  fun t =>
    match serve_post env t rq with
    | Answered r => (Return r, (t ++ [HttpPost rq])%list)
    | Failed msg => (Raise (mk_exn TransportError msg), (t ++ [HttpPost rq])%list)
    end.

(** [response.json()]. *)
Definition response_json (r : response) : result json :=
  match decoded r with
  | inr v => Return v
  | inl msg => Raise (mk_exn JSONDecodeError msg)
  end.

(** [if response.status_code != 200: raise Exception(f"...")]. *)
Definition check_status (api : string) (r : response) : M unit :=
  if (status_code r =? 200)%Z then ret tt
  else raise (mk_exn PlainException
                (api ++ " request failed with status code "
                     ++ str_of_int (status_code r) ++ ": " ++ text r)).

(** The dict literal built for one entry of [organic_results]. *)
Definition normalize (entry : json) : result dict :=
  rbind (dict_get entry "title" (JStr EmptyString)) (fun title =>
  rbind (dict_get entry "snippet" (JStr EmptyString)) (fun snippet =>
  Return [("title", title); ("snippet", snippet)])).

(** From [search_results = []] to the end of the loop. *)
Definition extract_results (data : json) : result (list dict) :=
  rbind (contains_key "organic_results" data) (fun present =>
  if present : bool then
    rbind (getitem_key data "organic_results") (fun organic =>
    rbind (slice_items organic (MAX_SEARCH_RESULTS cfg)) (fun entries =>
    rmap normalize entries))
  else Return []).

Definition search_request (key topic : string) : get_request :=
  mk_get "https://serpapi.com/search"
    [ ("api_key", JStr key);
      ("q", JStr topic);
      ("google_domain", JStr "google.com");
      ("gl", JStr "us");
      ("hl", JStr "en");
      ("num", JInt (MAX_SEARCH_RESULTS cfg)) ]
    30.

Definition search_topic (topic : string) : M (list dict) :=
  emit (SearchCall topic) ;;;
  key <- require_key (SERPAPI_KEY cfg) "SerpAPI key is not configured" ;;
  response <- client_get (search_request key topic) ;;
  check_status "SerpAPI" response ;;;
  data <- lift (response_json response) ;;
  search_results <- lift (extract_results data) ;;
  match search_results with
  | [] => raise (mk_exn PlainException "No search results found")
  | _ :: _ => emit (SearchReturn search_results) ;;; ret search_results
  end.

Definition completion_request (key prompt : string) : post_request :=
  mk_post "https://api.groq.com/openai/v1/chat/completions"
    [ ("Authorization", "Bearer " ++ key);
      ("Content-Type", "application/json") ]
    (JObj [ ("model", JStr (GROQ_MODEL cfg));
            ("messages", JArr [ JObj [ ("role", JStr "user");
                                       ("content", JStr prompt) ] ]);
            ("temperature", JFloat "0.7");
            ("max_tokens", JInt 1024) ])
    60.

(** [response_data["choices"][0]["message"]["content"].strip()]. *)
Definition extract_content (response_data : json) : result string :=
  rbind (getitem_key response_data "choices") (fun choices =>
  rbind (getitem_first choices) (fun choice =>
  rbind (getitem_key choice "message") (fun message =>
  rbind (getitem_key message "content") (fun content =>
  str_strip content)))).

Definition _call_groq_api (prompt : string) : M string :=
  emit (CompletionCall prompt) ;;;
  key <- require_key (GROQ_API_KEY cfg) "GroqCloud API key is not configured" ;;
  response <- client_post (completion_request key prompt) ;;
  check_status "GroqCloud API" response ;;;
  response_data <- lift (response_json response) ;;
  content <- lift (extract_content response_data) ;;
  emit (CompletionReturn content) ;;;
  ret content.

(** [f"Title: {result['title']}\nSnippet: {result['snippet']}"]. *)
Definition format_result (r : dict) : result string :=
  rbind (dict_item r "title") (fun title =>
  rbind (dict_item r "snippet") (fun snippet =>
  Return ("Title: " ++ format_value title ++ nl
          ++ "Snippet: " ++ format_value snippet))).

(** The [context] string: the blocks joined by a blank line. *)
Definition build_context (search_results : list dict) : result string :=
  rbind (rmap format_result search_results) (fun blocks =>
  Return (concat (nl ++ nl) blocks)).

Definition generate_linkedin_post (topic : string) (search_results : list dict)
  : M (string * string) :=
  context <- lift (build_context search_results) ;;
  summary <- _call_groq_api (summary_prompt topic context) ;;
  linkedin_post <- _call_groq_api (post_prompt topic summary) ;;
  ret (summary, linkedin_post).

(** The body of the [try] block of [process_topic]. *)
Definition pipeline (topic : string) : M string :=
  emit (Progress 10 "Starting search...") ;;;
  search_results <- search_topic topic ;;
  emit (Progress 40 "Analyzing search results...") ;;;
  generated <- generate_linkedin_post topic search_results ;;
  emit (Progress 90 "Finalizing post...") ;;;
  ret (snd generated).

Definition process_topic (topic : string) : M string :=
  if String.eqb (strip topic) EmptyString
  then ret "Please enter a topic to generate a LinkedIn post."
  else try_except (pipeline topic) (fun e => ret ("Error: " ++ exn_str e)).

End Program.

End Pipeline.

(* ================================================================== *)
(** ** Simulated providers, for running the program on concrete inputs *)

Module Simulated.
Import PyStr Py World.

Definition sample_render (v : json) : string :=
  match v with
  | JNull => "None"
  | JBool true => "True"
  | JBool false => "False"
  | JInt n => str_of_int n
  | JFloat r => r
  | JStr s => s
  | JArr _ => "[...]"
  | JObj _ => "{...}"
  end.

Definition sample_cfg : Config :=
  mk_config (Some "serp-key") (Some "groq-key") 7
    "meta-llama/llama-4-maverick-17b-128e-instruct".

Definition ok (body : json) : outcome :=
  Answered (mk_response 200 EmptyString (inr body)).

(** One organic result, with a field the program ignores. *)
Definition one_result : json :=
  JObj [ ("organic_results",
          JArr [ JObj [ ("position", JInt 1);
                        ("title", JStr "AI in 2025");
                        ("snippet", JStr "Generative AI adoption grows") ] ]) ].

Definition completion (content : string) : json :=
  JObj [ ("choices",
          JArr [ JObj [ ("message", JObj [ ("role", JStr "assistant");
                                           ("content", JStr content) ]) ] ]) ].

(** The search answers with [one_result]; the first completion request is
    answered with the summary, every later one with the post. *)
Definition env_happy : Env :=
  mk_env
    (fun _ _ => ok one_result)
    (fun t _ => if existsb is_http_post t
                then ok (completion "Bhai, AI is everywhere now! #AI")
                else ok (completion "AI adoption is accelerating.")).

(** The search provider answers 500. *)
Definition env_search_500 : Env :=
  mk_env
    (fun _ _ => Answered (mk_response 500 "Internal Server Error"
                            (inl "Expecting value: line 1 column 1 (char 0)")))
    (serve_post env_happy).

(** The language-model provider answers 200 with a body without
    [choices]. *)
Definition env_no_choices : Env :=
  mk_env
    (serve_get env_happy)
    (fun _ _ => ok (JObj [ ("error", JStr "model overloaded") ])).

(** The search provider answers 200 with a body without
    [organic_results]. *)
Definition env_no_results : Env :=
  mk_env
    (fun _ _ => ok (JObj [ ("search_information",
                            JObj [ ("total_results", JInt 0) ]) ]))
    (serve_post env_happy).

(** The search provider answers 200 with an entry that is a string. *)
Definition env_string_entry : Env :=
  mk_env
    (fun _ _ => ok (JObj [ ("organic_results", JArr [ JStr "AI in 2025" ]) ]))
    (serve_post env_happy).

(** A topic of a space, a tab and a no-break space. *)
Definition blank_topic : string := " " ++ chr 9 ++ bytes [194; 160].

End Simulated.

(* ================================================================== *)
(** ** Shapes of a run's history *)

Module Obs.
Import Py World Prompt.
Local Open Scope list_scope.

(** An event that is neither a completion call nor a request to the
    language-model provider. *)
Definition silent (e : event) : Prop :=
  is_completion_call e = false /\ is_http_post e = false.

(** A stretch of history without completion calls. *)
Definition quiet (es : list event) : Prop :=
  Forall (fun e => is_completion_call e = false) es.

(** What the completion stage can leave in the history: no call; one call;
    or two calls, the second with the post prompt built from a text the
    first returned. *)
Inductive completions (topic : string) : list event -> Prop :=
  | no_call es : quiet es -> completions topic es
  | one_call p es : quiet es -> completions topic (CompletionCall p :: es)
  | two_calls p es s es' :
      quiet es -> In (CompletionReturn s) es -> quiet es' ->
      completions topic
        (CompletionCall p :: es ++ CompletionCall (post_prompt topic s) :: es').

End Obs.

(* ================================================================== *)
(** ** Requests, credentials and trimmed text *)

Module Wire.
Import PyStr Py World Pipeline.

Definition is_http_get (e : event) : bool :=
  match e with HttpGet _ => true | _ => false end.

(** A credential that passes [if not KEY]. *)
Definition configured (key : option string) (k : string) : Prop :=
  key = Some k /\ k <> EmptyString.

Definition ends_with (suf s : string) : Prop :=
  exists before, s = before ++ suf.

(** No whitespace character at either end. *)
Definition trimmed (s : string) : Prop :=
  forall w, In w whitespace -> ~ starts_with w s /\ ~ ends_with w s.

End Wire.

(* ================================================================== *)
(** ** More simulated configurations and providers *)

Module MoreSimulated.
Import PyStr Py World Simulated.

(** No credential at all: the search one is empty, the other unset. *)
Definition cfg_without_keys : Config :=
  mk_config (Some EmptyString) None 7 "llama".

(** The search credential only. *)
Definition cfg_search_only : Config :=
  mk_config (Some "serp-key") None 7 "llama".

(** A maximum of two. *)
Definition cfg_two_results : Config :=
  mk_config (Some "serp-key") (Some "groq-key") 2 "llama".

(** A maximum of -1: the slice drops the last entry. *)
Definition cfg_drop_last : Config :=
  mk_config (Some "serp-key") (Some "groq-key") (-1) "llama".

Definition three_results : json :=
  JObj [ ("organic_results",
          JArr [ JObj [ ("title", JStr "first") ];
                 JObj [ ("title", JStr "second"); ("snippet", JStr "two") ];
                 JObj [ ("snippet", JStr "three") ] ]) ].

Definition env_three_results : Env :=
  mk_env (fun _ _ => ok three_results) (serve_post env_happy).

(** The language-model provider answers 429. *)
Definition env_completion_429 : Env :=
  mk_env
    (serve_get env_happy)
    (fun _ _ => Answered (mk_response 429 "Too Many Requests"
                            (inl "Expecting value"))).

(** The language-model provider pads its text with whitespace. *)
Definition env_padded : Env :=
  mk_env
    (serve_get env_happy)
    (fun _ _ => ok (completion ("  AI adoption is accelerating. " ++ nl))).

(** A topic with spaces around it. *)
Definition padded_topic : string := "  AI trends 2025 ".

End MoreSimulated.

(* ================================================================== *)
(** ** Facts about strings *)

Module StrFacts.
Import PyStr.

Lemma append_assoc (a b c : string) : (a ++ b) ++ c = a ++ b ++ c.
Proof.
  induction a as [|ch a IH]; simpl; [reflexivity | now rewrite IH].
Qed.

Lemma append_empty_r (a : string) : a ++ EmptyString = a.
Proof.
  induction a as [|ch a IH]; simpl; [reflexivity | now rewrite IH].
Qed.

Lemma length_append (a b : string) : length (a ++ b) = length a + length b.
Proof.
  induction a as [|ch a IH]; simpl; [reflexivity | now rewrite IH].
Qed.

Lemma contains_refl (s : string) : contains s s.
Proof.
  exists EmptyString, EmptyString. simpl. now rewrite append_empty_r.
Qed.

Lemma contains_app_l (x a b : string) : contains x a -> contains x (a ++ b).
Proof.
  intros (u & v & ->). exists u, (v ++ b).
  now rewrite !append_assoc.
Qed.

Lemma contains_app_r (x a b : string) : contains x b -> contains x (a ++ b).
Proof.
  intros (u & v & ->). exists (a ++ u), v.
  now rewrite !append_assoc.
Qed.

Lemma contains_trans (x y z : string) :
  contains x y -> contains y z -> contains x z.
Proof.
  intros (u & v & ->) Hyz.
  destruct Hyz as (u' & v' & ->).
  exists (u' ++ u), (v ++ v'). now rewrite !append_assoc.
Qed.

(** A line of a joined text occurs in the text. *)
Lemma contains_line (sep line : string) (ls : list string) :
  In line ls -> contains line (concat sep ls).
Proof.
  induction ls as [|l ls IH]; simpl; [tauto|].
  intros [-> | Hin].
  - destruct ls; [apply contains_refl | apply contains_app_l, contains_refl].
  - destruct ls as [|l' ls]; [destruct Hin|].
    apply contains_app_r, contains_app_r, IH, Hin.
Qed.

(** A text whose first line is empty and which has a second line starts with
    the separator. *)
Lemma concat_blank_first (sep l : string) (ls : list string) :
  concat sep (EmptyString :: l :: ls) = sep ++ concat sep (l :: ls).
Proof. reflexivity. Qed.

(** *** [strip] on whitespace *)

Lemma whitespace_nonempty (w : string) : In w whitespace -> 1 <= length w.
Proof.
  intros H. vm_compute in H.
  repeat (destruct H as [<- | H]; [vm_compute; lia|]). destruct H.
Qed.

Lemma drop_one_whitespace (w r : string) :
  In w whitespace -> drop_one whitespace (w ++ r) = Some r.
Proof.
  intros H. vm_compute in H.
  repeat (destruct H as [<- | H]; [vm_compute; destruct r; reflexivity|]).
  destruct H.
Qed.

Lemma lstrip_loop_whitespace (cs : list string) :
  Forall (fun c => In c whitespace) cs ->
  forall n, length (concat EmptyString cs) <= n ->
  lstrip_loop n whitespace (concat EmptyString cs) = EmptyString.
Proof.
  intros Hall.
  assert (Hcat : forall c l, concat EmptyString (c :: l) = c ++ concat EmptyString l).
  { intros c [|c' l]; simpl; [now rewrite append_empty_r | reflexivity]. }
  induction Hall as [|c cs Hc Hcs IH]; intros n Hn.
  - destruct n; reflexivity.
  - rewrite Hcat in *. rewrite length_append in Hn.
    pose proof (whitespace_nonempty c Hc) as Hlen.
    destruct n as [|n]; [lia|].
    cbn [lstrip_loop]. rewrite (drop_one_whitespace c _ Hc).
    apply IH. lia.
Qed.

Lemma strip_all_whitespace (s : string) :
  all_whitespace s -> strip s = EmptyString.
Proof.
  intros (cs & Hall & ->).
  unfold strip, lstrip.
  rewrite (lstrip_loop_whitespace cs Hall) by lia.
  vm_compute. reflexivity.
Qed.

End StrFacts.

(* ================================================================== *)
(** ** Facts about histories *)

Local Open Scope list_scope.

Import PyStr Py World Prompt Pipeline Simulated Obs StrFacts.

Module TraceFacts.
Import Obs.

Ltac step :=
  match goal with
  | |- context [match ?x with _ => _ end] =>
      lazymatch x with
      | context [match _ with _ => _ end] => fail
      | _ => destruct x eqn:?
      end
  end.

Ltac unfold_m :=
  cbv [search_topic _call_groq_api generate_linkedin_post pipeline
       bind emit ret raise lift require_key client_get client_post
       check_status try_except].

Ltac cases := unfold_m; cbv beta; repeat (step; cbv beta iota).

Section Runs.
Variable render : json -> string.
Variable cfg : Config.
Variable env : Env.

Lemma search_topic_trace (topic : string) (t : trace) :
  exists es,
    snd (search_topic cfg env topic t) = (t ++ SearchCall topic :: es)
    /\ Forall silent es
    /\ forall rs, fst (search_topic cfg env topic t) = Return rs ->
         In (SearchReturn rs) es.
Proof.
  cases; cbn [fst snd]; rewrite <- ?app_assoc; cbn [app];
    (eexists; split; [reflexivity | split; [repeat constructor | ]]);
    intros rs' Hr; inversion Hr; subst; simpl; auto.
Qed.

Lemma completion_trace (prompt : string) (t : trace) :
  exists es,
    snd (_call_groq_api cfg env prompt t) = (t ++ CompletionCall prompt :: es)
    /\ quiet es
    /\ forall s, fst (_call_groq_api cfg env prompt t) = Return s ->
         In (CompletionReturn s) es.
Proof.
  cases; cbn [fst snd]; rewrite <- ?app_assoc; cbn [app];
    (eexists; split; [reflexivity | split; [repeat constructor | ]]);
    intros rs' Hr; inversion Hr; subst; simpl; auto.
Qed.

Lemma generate_unfold (topic : string) (rs : list dict) (t : trace) :
  generate_linkedin_post render cfg env topic rs t =
  match build_context render rs with
  | Raise e => (Raise e, t)
  | Return context =>
      match _call_groq_api cfg env (summary_prompt topic context) t with
      | (Raise e, t1) => (Raise e, t1)
      | (Return summary, t1) =>
          match _call_groq_api cfg env (post_prompt topic summary) t1 with
          | (Raise e, t2) => (Raise e, t2)
          | (Return post, t2) => (Return (summary, post), t2)
          end
      end
  end.
Proof.
  unfold generate_linkedin_post, bind, lift, ret.
  destruct (build_context render rs); [|reflexivity].
  destruct (_call_groq_api cfg env _ t) as [[s|e] t1]; [|reflexivity].
  destruct (_call_groq_api cfg env _ t1) as [[p|e] t2]; reflexivity.
Qed.

Lemma pipeline_unfold (topic : string) (t : trace) :
  pipeline render cfg env topic t =
  match search_topic cfg env topic (t ++ [Progress 10 "Starting search..."]) with
  | (Raise e, t1) => (Raise e, t1)
  | (Return rs, t1) =>
      match generate_linkedin_post render cfg env topic rs
              (t1 ++ [Progress 40 "Analyzing search results..."]) with
      | (Raise e, t2) => (Raise e, t2)
      | (Return generated, t2) =>
          (Return (snd generated), t2 ++ [Progress 90 "Finalizing post..."])
      end
  end.
Proof.
  unfold pipeline, bind, emit, ret.
  destruct (search_topic cfg env topic _) as [[rs|e] t1]; [|reflexivity].
  destruct (generate_linkedin_post render cfg env topic rs _) as [[g|e] t2];
    reflexivity.
Qed.

Lemma process_topic_unfold (topic : string) (t : trace) :
  strip topic <> EmptyString ->
  process_topic render cfg env topic t =
  match pipeline render cfg env topic t with
  | (Return post, t') => (Return post, t')
  | (Raise e, t') => (Return ("Error: " ++ exn_str e)%string, t')
  end.
Proof.
  intros Hne. unfold process_topic.
  destruct (String.eqb_spec (strip topic) EmptyString) as [E|_]; [contradiction|].
  unfold try_except, ret.
  destruct (pipeline render cfg env topic t) as [[p|e] t']; [reflexivity|].
  destruct e as [[] msg]; reflexivity.
Qed.

Lemma quiet_app (a b : list event) : quiet a -> quiet b -> quiet (a ++ b).
Proof. intros Ha Hb. apply Forall_app. now split. Qed.

Lemma silent_quiet (es : list event) : Forall silent es -> quiet es.
Proof. apply Forall_impl. now intros e [H _]. Qed.

Lemma quiet_has_no_call (a b : list event) (p : string) :
  quiet (a ++ CompletionCall p :: b) -> False.
Proof.
  intros H. apply Forall_app in H as [_ H].
  inversion H as [|x l Hx _]. discriminate Hx.
Qed.

(** Where a completion call sits in a history that begins quietly. *)
Lemma split_after_quiet (q rest pre post : list event) (p : string) :
  quiet q ->
  q ++ rest = pre ++ CompletionCall p :: post ->
  exists m, pre = q ++ m /\ rest = m ++ CompletionCall p :: post.
Proof.
  intros Hq. revert pre.
  induction Hq as [|x q Hx Hq IH]; intros pre E.
  - exists pre. now split.
  - destruct pre as [|y pre]; cbn [app] in E.
    + injection E as -> _. discriminate Hx.
    + injection E as -> E. destruct (IH _ E) as (m & -> & ->).
      exists m. now split.
Qed.

Lemma completions_app (topic : string) (g tl : list event) :
  completions topic g -> quiet tl -> completions topic (g ++ tl).
Proof.
  intros Hg Htl. destruct Hg as [es H|p es H|p es s es' H Hin H'].
  - apply no_call. now apply quiet_app.
  - cbn [app]. apply one_call. now apply quiet_app.
  - cbn [app]. rewrite <- app_assoc. cbn [app].
    apply two_calls; [assumption | assumption | now apply quiet_app].
Qed.

Lemma generate_trace (topic : string) (rs : list dict) (t : trace) :
  exists es,
    snd (generate_linkedin_post render cfg env topic rs t) = t ++ es
    /\ completions topic es.
Proof.
  rewrite generate_unfold.
  destruct (build_context render rs) as [ctx|e].
  2:{ exists []. rewrite app_nil_r. split; [reflexivity | apply no_call; constructor]. }
  destruct (completion_trace (summary_prompt topic ctx) t) as (es1 & E1 & Q1 & R1).
  destruct (_call_groq_api cfg env (summary_prompt topic ctx) t) as [[s|e] t1];
    cbn [fst snd] in *; subst t1.
  2:{ eexists. split; [reflexivity | now apply one_call]. }
  destruct (completion_trace (post_prompt topic s)
              (t ++ CompletionCall (summary_prompt topic ctx) :: es1))
    as (es2 & E2 & Q2 & _).
  destruct (_call_groq_api cfg env (post_prompt topic s) _) as [[p|e] t2];
    cbn [fst snd] in *; subst t2;
    (eexists; split;
     [rewrite <- app_assoc; cbn [app]; reflexivity
     | apply two_calls; auto]).
Qed.

(** The shape of every run of [process_topic]: a quiet stretch, which holds
    the search, then the completion calls. *)
Lemma process_topic_shape (topic : string) :
  exists q g,
    snd (process_topic render cfg env topic []) = q ++ g
    /\ quiet q
    /\ completions topic g
    /\ (g <> [] -> exists rs, In (SearchReturn rs) q).
Proof.
  unfold process_topic.
  destruct (String.eqb (strip topic) EmptyString).
  { exists [], []. repeat split; try constructor. constructor. congruence. }
  assert (Hsnd : snd (try_except (pipeline render cfg env topic)
                        (fun e => ret ("Error: " ++ exn_str e)%string) [])
                 = snd (pipeline render cfg env topic [])).
  { unfold try_except, ret.
    destruct (pipeline render cfg env topic []) as [[p|[[] msg]] t']; reflexivity. }
  rewrite Hsnd, pipeline_unfold. cbn [app].
  destruct (search_topic_trace topic [Progress 10 "Starting search..."])
    as (es & E & S & R).
  destruct (search_topic cfg env topic _) as [[rs|e] t1]; cbn [fst snd] in *; subst t1.
  2:{ eexists _, []. rewrite app_nil_r. repeat split.
      - constructor; [reflexivity|]. constructor; [reflexivity|].
        now apply silent_quiet.
      - apply no_call; constructor.
      - congruence. }
  destruct (generate_trace topic rs
              (([Progress 10 "Starting search..."] ++ SearchCall topic :: es)
                 ++ [Progress 40 "Analyzing search results..."]))
    as (g & G & C).
  assert (Q : quiet (([Progress 10 "Starting search..."] ++ SearchCall topic :: es)
                       ++ [Progress 40 "Analyzing search results..."])).
  { apply quiet_app; [|repeat constructor].
    cbn [app]. constructor; [reflexivity|]. constructor; [reflexivity|].
    now apply silent_quiet. }
  assert (I : In (SearchReturn rs)
                (([Progress 10 "Starting search..."] ++ SearchCall topic :: es)
                   ++ [Progress 40 "Analyzing search results..."])).
  { apply in_or_app. left. right. right. now apply R. }
  destruct (generate_linkedin_post render cfg env topic rs _) as [[gen|e] t2];
    cbn [fst snd] in *; subst t2.
  - eexists _, (g ++ [Progress 90 "Finalizing post..."]).
    rewrite <- app_assoc. split; [reflexivity|]. split; [exact Q|]. split.
    + apply completions_app; [assumption | repeat constructor].
    + intros _. now exists rs.
  - eexists _, g. split; [reflexivity|]. split; [exact Q|]. split; [assumption|].
    intros _. now exists rs.
Qed.

Lemma post_prompt_contains_summary (topic summary : string) :
  contains summary (post_prompt topic summary).
Proof.
  apply contains_trans with (y := ("    " ++ summary)%string).
  - apply contains_app_r, contains_refl.
  - apply contains_line. apply in_or_app. left.
    unfold post_opening. cbn [In]. auto 10.
Qed.

End Runs.
End TraceFacts.
Import TraceFacts.

Module SearchFacts.

Lemma rmap_Forall2 {A B : Type} (f : A -> result B) (l : list A) (l' : list B) :
  rmap f l = Return l' -> Forall2 (fun a b => f a = Return b) l l'.
Proof.
  revert l'. induction l as [|a l IH]; intros l' H; cbn [rmap] in H.
  - injection H as <-. constructor.
  - destruct (f a) as [b|e] eqn:Fa; cbn [rbind] in H; [|discriminate].
    destruct (rmap f l) as [bs|e]; cbn [rbind] in H; [|discriminate].
    injection H as <-. constructor; auto.
Qed.

Lemma rmap_total {A B : Type} (f : A -> result B) (l : list A) :
  Forall (fun a => exists b, f a = Return b) l -> exists l', rmap f l = Return l'.
Proof.
  induction 1 as [|a l [b Hb] _ [bs IH]]; cbn [rmap].
  - now exists [].
  - rewrite Hb, IH. cbn [rbind]. now exists (b :: bs).
Qed.

(** What [normalize] makes of an entry, when it makes anything. *)
Lemma normalize_inv (entry : json) (rec : dict) :
  normalize entry = Return rec ->
  exists d, entry = JObj d
    /\ rec = [ ("title", match lookup "title" d with
                         | Some v => v
                         | None => JStr EmptyString
                         end);
               ("snippet", match lookup "snippet" d with
                           | Some v => v
                           | None => JStr EmptyString
                           end) ].
Proof.
  destruct entry; cbn; intros H; try discriminate.
  injection H as <-. eexists. split; reflexivity.
Qed.

Lemma normalize_object (d : dict) : exists rec, normalize (JObj d) = Return rec.
Proof. eexists. reflexivity. Qed.

(** [normalize] fails in one way only: the entry has no method [get]. *)
Lemma normalize_error (entry : json) (e : exn) :
  normalize entry = Raise e -> exn_cls e = AttributeError.
Proof.
  destruct entry; cbn; intros H; try discriminate H;
    injection H as <-; reflexivity.
Qed.

Lemma rmap_normalize_error (entries : list json) (e : exn) :
  rmap normalize entries = Raise e -> exn_cls e = AttributeError.
Proof.
  induction entries as [|entry entries IH]; cbn [rmap]; [discriminate|].
  destruct (normalize entry) as [rec|e'] eqn:Hn; cbn [rbind].
  - destruct (rmap normalize entries) as [recs|e'']; cbn [rbind];
      [discriminate|].
    intros H. injection H as <-. now apply IH.
  - intros H. injection H as <-. now apply normalize_error in Hn.
Qed.

Section Search.
Variable cfg : Config.
Variable env : Env.

(** The errors of the extraction are the interpreter's, never the
    program's own [Exception]. *)
Lemma extract_results_error (data : json) (e : exn) :
  extract_results cfg data = Raise e -> exn_cls e <> PlainException.
Proof.
  unfold extract_results.
  destruct (contains_key "organic_results" data) as [[|]|e'] eqn:Hc;
    cbn [rbind].
  - destruct (getitem_key data "organic_results") as [organic|e'] eqn:Hg;
      cbn [rbind].
    + destruct (slice_items organic (MAX_SEARCH_RESULTS cfg)) as [entries|e'] eqn:Hsl;
        cbn [rbind].
      * intros H. apply rmap_normalize_error in H. rewrite H. discriminate.
      * intros H. injection H as <-.
        destruct organic; cbn in Hsl; try discriminate Hsl;
          injection Hsl as <-; discriminate.
    + intros H. injection H as <-.
      destruct data; cbn in Hg; try discriminate Hg;
        try (injection Hg as <-; discriminate).
      destruct (lookup "organic_results" fields); [discriminate Hg|].
      injection Hg as <-. discriminate.
  - discriminate.
  - intros H. injection H as <-.
    destruct data; cbn in Hc; try discriminate Hc;
      injection Hc as <-; discriminate.
Qed.

Lemma extract_results_inv (data : json) (rs : list dict) :
  extract_results cfg data = Return rs ->
  exists entries, rmap normalize entries = Return rs.
Proof.
  unfold extract_results.
  destruct (contains_key "organic_results" data) as [[|]|e]; cbn [rbind];
    try discriminate.
  - destruct (getitem_key data "organic_results") as [organic|e]; cbn [rbind];
      [|discriminate].
    destruct (slice_items organic (MAX_SEARCH_RESULTS cfg)) as [entries|e];
      cbn [rbind]; [|discriminate].
    intros H. now exists entries.
  - intros H. injection H as <-. now exists [].
Qed.

(** [search_topic] once the request has been answered. *)
Lemma search_topic_answered (topic : string) (t : trace) (key : string) (r : response) :
  SERPAPI_KEY cfg = Some key ->
  key <> EmptyString ->
  serve_get env (t ++ [SearchCall topic]) (search_request cfg key topic) = Answered r ->
  search_topic cfg env topic t =
  let t' := t ++ [SearchCall topic; HttpGet (search_request cfg key topic)] in
  if (status_code r =? 200)%Z then
    match decoded r with
    | inl msg => (Raise (mk_exn JSONDecodeError msg), t')
    | inr data =>
        match extract_results cfg data with
        | Raise e => (Raise e, t')
        | Return [] => (Raise (mk_exn PlainException "No search results found"), t')
        | Return (r1 :: rs) => (Return (r1 :: rs), t' ++ [SearchReturn (r1 :: rs)])
        end
    end
  else
    (Raise (mk_exn PlainException
              ("SerpAPI request failed with status code "
                 ++ str_of_int (status_code r) ++ ": " ++ text r)%string), t').
Proof.
  intros Hkey Hne Hget.
  unfold_m. rewrite Hkey.
  destruct (String.eqb_spec key EmptyString) as [E|_]; [contradiction|].
  rewrite Hget.
  replace ((t ++ [SearchCall topic]) ++ [HttpGet (search_request cfg key topic)])
    with (t ++ [SearchCall topic; HttpGet (search_request cfg key topic)])
    by (rewrite <- app_assoc; reflexivity).
  cbv zeta.
  destruct (status_code r =? 200)%Z; [|reflexivity].
  unfold response_json.
  destruct (decoded r) as [msg|data]; [reflexivity|].
  destruct (extract_results cfg data) as [[|r1 rs]|e]; reflexivity.
Qed.

Lemma search_topic_returns (topic : string) (t t' : trace) (rs : list dict) :
  search_topic cfg env topic t = (Return rs, t') ->
  rs <> [] /\ exists data, extract_results cfg data = Return rs.
Proof.
  cases; intros H; try discriminate H.
  injection H as <- _. split; [discriminate | eauto].
Qed.

End Search.
End SearchFacts.
Import SearchFacts.

Module ContextFacts.
Section Context.
Variable render : json -> string.

Lemma build_context_total (rs : list dict) :
  Forall (fun r => lookup "title" r <> None /\ lookup "snippet" r <> None) rs ->
  exists context, build_context render rs = Return context.
Proof.
  intros H. unfold build_context.
  destruct (rmap_total (format_result render) rs) as [blocks ->].
  - revert H. apply Forall_impl. intros r [Ht Hs].
    unfold format_result, dict_item.
    destruct (lookup "title" r); [|contradiction].
    destruct (lookup "snippet" r); [|contradiction].
    cbn [rbind]. eauto.
  - cbn [rbind]. eauto.
Qed.

Lemma normalized_have_fields (entries : list json) (rs : list dict) :
  rmap normalize entries = Return rs ->
  Forall (fun r => lookup "title" r <> None /\ lookup "snippet" r <> None) rs.
Proof.
  intros H. apply rmap_Forall2 in H.
  induction H as [|entry rec entries rs Hn _ IH]; constructor; [|exact IH].
  apply normalize_inv in Hn as (d & _ & ->). split; discriminate.
Qed.

(** The context is always built from what [search_topic] returned. *)
Lemma context_of_search_results
    (cfg : Config) (env : Env) (topic : string) (t t' : trace) (rs : list dict) :
  search_topic cfg env topic t = (Return rs, t') ->
  exists context, build_context render rs = Return context.
Proof.
  intros H.
  destruct (search_topic_returns cfg env topic t t' rs H) as (_ & data & Hd).
  destruct (extract_results_inv cfg data rs Hd) as (entries & He).
  apply build_context_total. eapply normalized_have_fields; eassumption.
Qed.

End Context.
End ContextFacts.
Import ContextFacts.

Module PromptFacts.

Lemma summary_prompt_contains_topic (topic context : string) :
  contains topic (summary_prompt topic context).
Proof.
  unfold summary_prompt.
  eapply contains_trans; [|apply contains_line; cbn [In]; right; left; reflexivity].
  apply contains_app_r, contains_app_r, contains_app_l, contains_refl.
Qed.

Lemma post_prompt_contains_topic (topic summary : string) :
  contains topic (post_prompt topic summary).
Proof.
  unfold post_prompt.
  eapply contains_trans;
    [|apply contains_line, in_or_app; left; unfold post_opening; cbn [In];
      right; left; reflexivity].
  apply contains_app_r, contains_app_r, contains_app_l, contains_refl.
Qed.

Lemma summary_prompt_nonempty (topic context : string) :
  summary_prompt topic context <> EmptyString.
Proof. unfold summary_prompt. rewrite concat_blank_first. discriminate. Qed.

Lemma post_prompt_nonempty (topic summary : string) :
  post_prompt topic summary <> EmptyString.
Proof.
  unfold post_prompt, post_opening. cbn [app].
  rewrite concat_blank_first. discriminate.
Qed.

(** The two prompts differ from their ninth byte on, whatever is filled
    in. *)
Lemma summary_prompt_is_not_post_prompt (topic context topic' summary : string) :
  summary_prompt topic context <> post_prompt topic' summary.
Proof.
  intros E. apply (f_equal (substring 0 9)) in E.
  vm_compute in E. discriminate E.
Qed.

Lemma quiet_not_in (es : list event) (p : string) :
  quiet es -> ~ In (CompletionCall p) es.
Proof.
  intros Q Hin. unfold quiet in Q. rewrite Forall_forall in Q.
  specialize (Q _ Hin). discriminate Q.
Qed.

Section Sent.
Variable render : json -> string.
Variable cfg : Config.
Variable env : Env.

(** The prompts [generate_linkedin_post] sends. *)
Lemma generate_prompts (topic : string) (rs : list dict) (context : string) (t : trace) :
  build_context render rs = Return context ->
  exists es,
    snd (generate_linkedin_post render cfg env topic rs t)
    = t ++ CompletionCall (summary_prompt topic context) :: es
    /\ forall p, In (CompletionCall p) es ->
         exists s, In (CompletionReturn s) es /\ p = post_prompt topic s.
Proof.
  intros Hc. rewrite generate_unfold, Hc.
  destruct (completion_trace cfg env (summary_prompt topic context) t)
    as (es1 & E1 & Q1 & R1).
  destruct (_call_groq_api cfg env (summary_prompt topic context) t) as [[s|e] t1];
    cbn [fst snd] in *; subst t1.
  2:{ exists es1. split; [reflexivity|]. intros p Hp.
      now apply quiet_not_in in Hp. }
  destruct (completion_trace cfg env (post_prompt topic s)
              (t ++ CompletionCall (summary_prompt topic context) :: es1))
    as (es2 & E2 & Q2 & _).
  assert (G : forall p,
             In (CompletionCall p) (es1 ++ CompletionCall (post_prompt topic s) :: es2) ->
             exists s', In (CompletionReturn s')
                          (es1 ++ CompletionCall (post_prompt topic s) :: es2)
                        /\ p = post_prompt topic s').
  { intros p Hp. apply in_app_or in Hp as [Hp|[Hp|Hp]].
    - now apply quiet_not_in in Hp.
    - injection Hp as <-. exists s. split; [|reflexivity].
      apply in_or_app. left. now apply R1.
    - now apply quiet_not_in in Hp. }
  destruct (_call_groq_api cfg env (post_prompt topic s) _) as [[p|e] t2];
    cbn [fst snd] in *; subst t2;
    (eexists; split; [rewrite <- app_assoc; cbn [app]; reflexivity | exact G]).
Qed.

End Sent.
End PromptFacts.
Import PromptFacts.

Module RunFacts.
Section Run.
Variable render : json -> string.
Variable cfg : Config.
Variable env : Env.

(** A run in which every stage succeeds. *)
Lemma successful_run
    (topic : string) (rs : list dict) (context summary post : string)
    (t1 t2 t3 : trace) :
  strip topic <> EmptyString ->
  search_topic cfg env topic [Progress 10 "Starting search..."] = (Return rs, t1) ->
  build_context render rs = Return context ->
  _call_groq_api cfg env (summary_prompt topic context)
    (t1 ++ [Progress 40 "Analyzing search results..."]) = (Return summary, t2) ->
  _call_groq_api cfg env (post_prompt topic summary) t2 = (Return post, t3) ->
  process_topic render cfg env topic []
  = (Return post, t3 ++ [Progress 90 "Finalizing post..."]).
Proof.
  intros Hne Hs Hc H1 H2.
  rewrite process_topic_unfold by assumption.
  rewrite pipeline_unfold. cbn [app]. rewrite Hs.
  rewrite generate_unfold, Hc, H1, H2. reflexivity.
Qed.

(** [_call_groq_api] once the request has been answered. *)
Lemma completion_answered (prompt : string) (t : trace) (key : string) (r : response) :
  GROQ_API_KEY cfg = Some key ->
  key <> EmptyString ->
  serve_post env (t ++ [CompletionCall prompt]) (completion_request cfg key prompt)
  = Answered r ->
  _call_groq_api cfg env prompt t =
  let t' := t ++ [CompletionCall prompt; HttpPost (completion_request cfg key prompt)] in
  if (status_code r =? 200)%Z then
    match decoded r with
    | inl msg => (Raise (mk_exn JSONDecodeError msg), t')
    | inr response_data =>
        match extract_content response_data with
        | Raise e => (Raise e, t')
        | Return content => (Return content, t' ++ [CompletionReturn content])
        end
    end
  else
    (Raise (mk_exn PlainException
              ("GroqCloud API request failed with status code "
                 ++ str_of_int (status_code r) ++ ": " ++ text r)%string), t').
Proof.
  intros Hkey Hne Hpost.
  unfold_m. rewrite Hkey.
  destruct (String.eqb_spec key EmptyString) as [E|_]; [contradiction|].
  rewrite Hpost.
  replace ((t ++ [CompletionCall prompt])
             ++ [HttpPost (completion_request cfg key prompt)])
    with (t ++ [CompletionCall prompt; HttpPost (completion_request cfg key prompt)])
    by (rewrite <- app_assoc; reflexivity).
  cbv zeta.
  destruct (status_code r =? 200)%Z; [|reflexivity].
  unfold response_json.
  destruct (decoded r) as [msg|data]; [reflexivity|].
  destruct (extract_content data) as [c|e]; reflexivity.
Qed.

Lemma silent_filters (es : list event) :
  Forall silent es ->
  filter is_completion_call es = [] /\ filter is_http_post es = []
  /\ existsb is_http_post es = false.
Proof.
  induction 1 as [|e es [Hc Hp] _ (IH1 & IH2 & IH3)]; cbn [filter existsb].
  - auto.
  - rewrite Hc, Hp. auto.
Qed.

End Run.
End RunFacts.
Import RunFacts.

(* ================================================================== *)
(** ** What a returned list says about the provider's answer *)

Module AnswerFacts.

Lemma firstn_of_firstn_length {A : Type} (n : nat) (l : list A) :
  firstn (List.length (firstn n l)) l = firstn n l.
Proof.
  rewrite length_firstn.
  destruct (Nat.le_ge_cases n (List.length l)) as [L|L].
  - now rewrite Nat.min_l.
  - rewrite Nat.min_r by assumption. now rewrite !firstn_all2.
Qed.

Lemma rmap_normalize_strings (cs : list string) (rs : list dict) :
  rmap normalize (map JStr cs) = Return rs -> rs = [].
Proof.
  destruct cs as [|c cs]; cbn; [intros H; now injection H | discriminate].
Qed.

Section Answer.
Variable cfg : Config.
Variable env : Env.

(** A non-empty extraction comes from an object whose [organic_results] is
    a list, and normalises the entries at its front. *)
Lemma extract_results_return_inv (data : json) (rs : list dict) :
  extract_results cfg data = Return rs ->
  rs <> [] ->
  exists fields organic,
    data = JObj fields
    /\ lookup "organic_results" fields = Some (JArr organic)
    /\ rmap normalize (firstn (List.length rs) organic) = Return rs.
Proof.
  unfold extract_results. intros H Hne.
  destruct data as [| | | |s|items|fields]; try discriminate H.
  - cbn [contains_key rbind] in H.
    destruct (contains_b "organic_results" s); [discriminate H|].
    injection H as <-. congruence.
  - cbn [contains_key rbind] in H.
    destruct (existsb _ items); [discriminate H|].
    injection H as <-. congruence.
  - cbn [contains_key getitem_key rbind] in H.
    destruct (lookup "organic_results" fields) as [organic|] eqn:L;
      cbn [rbind] in H; [|injection H as <-; congruence].
    destruct organic as [| | | |s|l|d]; try discriminate H.
    + cbn [slice_items rbind] in H.
      apply rmap_normalize_strings in H. congruence.
    + cbn [slice_items rbind] in H.
      exists fields, l. split; [reflexivity|]. split; [exact L|].
      pose proof (rmap_Forall2 _ _ _ H) as F.
      apply Forall2_length in F. rewrite <- F.
      now rewrite firstn_of_firstn_length.
Qed.

(** A return of [search_topic] comes from an answer with status 200 that
    decodes, through the extraction. *)
Lemma search_topic_return_inv (topic : string) (t t' : trace) (rs : list dict) :
  search_topic cfg env topic t = (Return rs, t') ->
  exists key r data,
    SERPAPI_KEY cfg = Some key
    /\ key <> EmptyString
    /\ serve_get env (t ++ [SearchCall topic]) (search_request cfg key topic)
       = Answered r
    /\ status_code r = 200%Z
    /\ decoded r = inr data
    /\ extract_results cfg data = Return rs
    /\ rs <> [].
Proof.
  intros H.
  destruct (SERPAPI_KEY cfg) as [k|] eqn:K.
  2:{ revert H. unfold_m. rewrite K. discriminate. }
  destruct (String.eqb_spec k EmptyString) as [->|Hk].
  { revert H. unfold_m. rewrite K. discriminate. }
  destruct (serve_get env (t ++ [SearchCall topic]) (search_request cfg k topic))
    as [msg|r] eqn:G.
  { revert H. unfold_m. rewrite K.
    destruct (String.eqb_spec k EmptyString) as [E|_]; [contradiction|].
    rewrite G. discriminate. }
  rewrite (search_topic_answered cfg env topic t k r K Hk G) in H.
  cbv zeta in H.
  destruct (Z.eqb_spec (status_code r) 200) as [S|_]; [|discriminate H].
  destruct (decoded r) as [msg|data] eqn:D; [discriminate H|].
  destruct (extract_results cfg data) as [[|r1 rs']|e] eqn:X; try discriminate H.
  injection H as <- _.
  exists k, r, data. repeat split; auto. discriminate.
Qed.

End Answer.
End AnswerFacts.
Import AnswerFacts.

(* ================================================================== *)
(** ** The program on concrete inputs *)

Module Checks.

Example strip_keeps_inner_spaces : strip "  AI  trends " = "AI  trends"%string.
Proof. reflexivity. Qed.

Example strip_no_break_space : strip blank_topic = EmptyString.
Proof. reflexivity. Qed.

Example status_code_text : str_of_int 500 = "500"%string.
Proof. reflexivity. Qed.

Example entry_without_fields :
  normalize (JObj [ ("link", JStr "https://example.org") ])
  = Return [ ("title", JStr EmptyString); ("snippet", JStr EmptyString) ].
Proof. reflexivity. Qed.

Example context_of_one_result :
  build_context sample_render
    [ [ ("title", JStr "AI in 2025");
        ("snippet", JStr "Generative AI adoption grows") ] ]
  = Return ("Title: AI in 2025" ++ nl ++ "Snippet: Generative AI adoption grows")%string.
Proof. reflexivity. Qed.

Example context_needs_both_fields :
  build_context sample_render [ [ ("title", JStr "AI in 2025") ] ]
  = Raise (mk_exn KeyError "'snippet'").
Proof. reflexivity. Qed.

Example missing_search_credential :
  process_topic sample_render
    (mk_config None (Some "groq-key") 7 "llama") env_happy "AI trends 2025" []
  = (Return "Error: SerpAPI key is not configured",
     [Progress 10 "Starting search..."; SearchCall "AI trends 2025"]).
Proof. reflexivity. Qed.

(** Outside the input constraints of the search client: a maximum that is
    not positive, an entry that is not an object. *)
Example maximum_zero :
  fst (search_topic (mk_config (Some "serp-key") (Some "groq-key") 0 "llama")
         env_happy "AI trends 2025" [])
  = Raise (mk_exn PlainException "No search results found").
Proof. reflexivity. Qed.

Example entry_that_is_a_string :
  fst (search_topic sample_cfg env_string_entry "AI trends 2025" [])
  = Raise (mk_exn AttributeError "'str' object has no attribute 'get'").
Proof. reflexivity. Qed.

End Checks.

(* ================================================================== *)
(** ** The properties of the specification *)

(** C1.  The happy path of the specification's scenario.  The topic is
    [AI trends 2025]; the search stage of the run returns the single record
    with title [AI in 2025] and snippet [Generative AI adoption grows]; the
    first completion call of the run (on the summary prompt built from that
    record) returns [AI adoption is accelerating.]; the second (on the post
    prompt built from that summary) returns
    [Bhai, AI is everywhere now! #AI].  Then [process_topic] returns exactly
    that second text. *)
Theorem process_topic_happy_path
    (render : json -> string) (cfg : Config) (env : Env) (t1 t2 t3 : trace) :
  search_topic cfg env "AI trends 2025" [Progress 10 "Starting search..."]
  = (Return [ [ ("title", JStr "AI in 2025");
                ("snippet", JStr "Generative AI adoption grows") ] ], t1) ->
  _call_groq_api cfg env
    (summary_prompt "AI trends 2025"
       ("Title: AI in 2025" ++ nl ++ "Snippet: Generative AI adoption grows")%string)
    (t1 ++ [Progress 40 "Analyzing search results..."])
  = (Return "AI adoption is accelerating.", t2) ->
  _call_groq_api cfg env
    (post_prompt "AI trends 2025" "AI adoption is accelerating.") t2
  = (Return "Bhai, AI is everywhere now! #AI", t3) ->
  fst (process_topic render cfg env "AI trends 2025" [])
  = Return "Bhai, AI is everywhere now! #AI".
Proof.
  intros Hs H1 H2.
  erewrite successful_run; [reflexivity | | exact Hs | | exact H1 | exact H2].
  - vm_compute. discriminate.
  - reflexivity.
Qed.

Lemma process_topic_happy_path_witness :
  fst (process_topic sample_render sample_cfg env_happy "AI trends 2025" [])
  = Return "Bhai, AI is everywhere now! #AI".
Proof.
  eapply (process_topic_happy_path sample_render sample_cfg env_happy);
    reflexivity.
Defined.

(** C2.  Failures are flattened into text.  For every topic, [process_topic]
    returns a string and never raises.  For a topic that is not blank, any
    exception [e] that leaves the [try] block is returned as the text
    [Error: ] followed by [str(e)]; in particular the one raised by the
    search, by the construction of the context, by the first completion
    call or by the second. *)
Theorem process_topic_flattens_failures
    (render : json -> string) (cfg : Config) (env : Env) (topic : string) :
  (exists out, fst (process_topic render cfg env topic []) = Return out)
  /\
  (strip topic <> EmptyString ->
   forall e : exn,
     let flattened (run : trace) :=
       process_topic render cfg env topic []
       = (Return ("Error: " ++ exn_str e)%string, run) in
     (forall run, pipeline render cfg env topic [] = (Raise e, run) -> flattened run)
     /\
     (forall t1,
         search_topic cfg env topic [Progress 10 "Starting search..."] = (Raise e, t1) ->
         flattened t1)
     /\
     (forall rs t1,
         search_topic cfg env topic [Progress 10 "Starting search..."] = (Return rs, t1) ->
         (build_context render rs = Raise e ->
          flattened (t1 ++ [Progress 40 "Analyzing search results..."]))
         /\
         (forall context,
             build_context render rs = Return context ->
             (forall t2,
                 _call_groq_api cfg env (summary_prompt topic context)
                   (t1 ++ [Progress 40 "Analyzing search results..."]) = (Raise e, t2) ->
                 flattened t2)
             /\
             (forall summary t2 t3,
                 _call_groq_api cfg env (summary_prompt topic context)
                   (t1 ++ [Progress 40 "Analyzing search results..."])
                 = (Return summary, t2) ->
                 _call_groq_api cfg env (post_prompt topic summary) t2 = (Raise e, t3) ->
                 flattened t3)))).
Proof.
  split.
  - unfold process_topic.
    destruct (String.eqb (strip topic) EmptyString); [now eexists|].
    unfold try_except, ret.
    destruct (pipeline render cfg env topic []) as [[post|[[] msg]] t'];
      cbn [fst]; eexists; reflexivity.
  - intros Hne e flattened. subst flattened. cbv beta.
    rewrite (process_topic_unfold render cfg env topic [] Hne).
    split; [intros run ->; reflexivity|].
    rewrite pipeline_unfold. cbn [app].
    split; [intros t1 ->; reflexivity|].
    intros rs t1 ->. rewrite generate_unfold.
    split; [intros ->; reflexivity|].
    intros context ->.
    split; [intros t2 ->; reflexivity|].
    intros summary t2 t3 -> ->. reflexivity.
Qed.

Lemma process_topic_flattens_failures_witness :
  exists run,
    process_topic sample_render sample_cfg env_search_500 "AI trends 2025" []
    = (Return "Error: SerpAPI request failed with status code 500: Internal Server Error",
       run).
Proof.
  eexists.
  refine (proj1 (proj2 (proj2 (process_topic_flattens_failures
                                 sample_render sample_cfg env_search_500
                                 "AI trends 2025") _
                          (mk_exn PlainException
                             "SerpAPI request failed with status code 500: Internal Server Error")))
            _ _).
  - vm_compute. discriminate.
  - reflexivity.
Defined.

(** C3.  Order of the stages and flow of the data in a run of
    [process_topic].  Before every call of [_call_groq_api] the history
    holds a successful return of [search_topic]; and when a call of
    [_call_groq_api] is followed by another, the first returned, between
    them, a text that occurs verbatim in the prompt of the second. *)
Theorem completion_after_search_and_chained
    (render : json -> string) (cfg : Config) (env : Env) (topic : string) :
  let run := snd (process_topic render cfg env topic []) in
  (forall pre p post,
      run = pre ++ CompletionCall p :: post ->
      exists rs, In (SearchReturn rs) pre)
  /\
  (forall pre p1 mid p2 post,
      run = pre ++ CompletionCall p1 :: mid ++ CompletionCall p2 :: post ->
      exists summary, In (CompletionReturn summary) mid /\ contains summary p2).
Proof.
  intros run. subst run.
  destruct (process_topic_shape render cfg env topic) as (q & g & -> & Q & C & S).
  split.
  - intros pre p post E.
    destruct (split_after_quiet _ _ _ _ _ Q E) as (m & -> & ->).
    destruct S as (rs & Hrs); [now destruct m|].
    exists rs. apply in_or_app. now left.
  - intros pre p1 mid p2 post E.
    destruct (split_after_quiet _ _ _ _ _ Q E) as (m & -> & ->). clear E S.
    remember (m ++ CompletionCall p1 :: mid ++ CompletionCall p2 :: post) as g eqn:G.
    destruct C as [es H|p es H|p es s es' H Hin H'].
    + subst es. now apply quiet_has_no_call in H.
    + destruct m as [|x m]; cbn [app] in G; injection G as _ G; subst es.
      * now apply quiet_has_no_call in H.
      * now apply quiet_has_no_call in H.
    + destruct m as [|x m]; cbn [app] in G; injection G as _ G.
      * destruct (split_after_quiet _ _ _ _ _ H G) as (k & -> & K).
        destruct k as [|y k]; cbn [app] in K; injection K as K1 K2.
        -- subst p2. exists s. split.
           ++ apply in_or_app. now left.
           ++ apply post_prompt_contains_summary.
        -- subst es'. now apply quiet_has_no_call in H'.
      * destruct (split_after_quiet _ _ _ _ _ H G) as (k & _ & K).
        destruct k as [|y k]; cbn [app] in K; injection K as _ K; subst es'.
        -- now apply quiet_has_no_call in H'.
        -- now apply quiet_has_no_call in H'.
Qed.

Lemma completion_after_search_and_chained_witness :
  let run := snd (process_topic sample_render sample_cfg env_happy "AI trends 2025" []) in
  (exists rs, In (SearchReturn rs) (firstn 5 run))
  /\ (exists summary,
         In (CompletionReturn summary) (firstn 2 (skipn 6 run))
         /\ contains summary
              (post_prompt "AI trends 2025" "AI adoption is accelerating.")).
Proof.
  intros run. split.
  - eapply (proj1 (completion_after_search_and_chained
                     sample_render sample_cfg env_happy "AI trends 2025")
              (firstn 5 run) _ (skipn 6 run)).
    reflexivity.
  - eapply (proj2 (completion_after_search_and_chained
                     sample_render sample_cfg env_happy "AI trends 2025")
              (firstn 5 run) _ (firstn 2 (skipn 6 run)) _ (skipn 9 run)).
    reflexivity.
Defined.

(** C4.  A topic that is empty or made of whitespace only: [process_topic]
    returns the fixed message and the history of the run stays empty, so
    neither [search_topic] nor [_call_groq_api] is called and no request is
    sent. *)
Theorem empty_topic_short_circuit
    (render : json -> string) (cfg : Config) (env : Env) (topic : string) :
  all_whitespace topic ->
  process_topic render cfg env topic []
  = (Return "Please enter a topic to generate a LinkedIn post.", []).
Proof.
  intros H. unfold process_topic.
  rewrite (strip_all_whitespace topic H). reflexivity.
Qed.

Lemma empty_topic_short_circuit_witness :
  all_whitespace blank_topic
  /\ process_topic sample_render sample_cfg env_happy blank_topic []
     = (Return "Please enter a topic to generate a LinkedIn post.", []).
Proof.
  assert (H : all_whitespace blank_topic).
  { exists [" "%string; chr 9; bytes [194; 160]]. split; [|reflexivity].
    repeat (apply Forall_cons;
            [vm_compute; repeat first [left; reflexivity | right]|]).
    apply Forall_nil. }
  split; [exact H|].
  apply (empty_topic_short_circuit sample_render sample_cfg env_happy blank_topic H).
Defined.

(** C5.  Shape of the normalised search results.  The credential is
    configured, the maximum is positive, and the provider answers 200 with
    an object whose [organic_results] is a non-empty list in which the
    entries the loop visits are objects.  Then [search_topic] returns a
    non-empty list, no longer than [MAX_SEARCH_RESULTS], whose records are,
    one for one and in the provider's order, those of the first
    [MAX_SEARCH_RESULTS] entries: the entry's [title] and [snippet], each
    the empty string where the entry has none. *)
Theorem search_topic_normalizes
    (cfg : Config) (env : Env) (topic : string) (t : trace)
    (key : string) (r : response) (fields : dict) (entries : list json) :
  SERPAPI_KEY cfg = Some key ->
  key <> EmptyString ->
  (0 < MAX_SEARCH_RESULTS cfg)%Z ->
  serve_get env (t ++ [SearchCall topic]) (search_request cfg key topic) = Answered r ->
  status_code r = 200%Z ->
  decoded r = inr (JObj fields) ->
  lookup "organic_results" fields = Some (JArr entries) ->
  entries <> [] ->
  Forall (fun entry => exists d, entry = JObj d)
    (firstn (Z.to_nat (MAX_SEARCH_RESULTS cfg)) entries) ->
  exists rs,
    fst (search_topic cfg env topic t) = Return rs
    /\ rs <> []
    /\ (Z.of_nat (List.length rs) <= MAX_SEARCH_RESULTS cfg)%Z
    /\ Forall2 (fun entry rec =>
               exists d, entry = JObj d
                 /\ rec = [ ("title", match lookup "title" d with
                                      | Some v => v
                                      | None => JStr EmptyString
                                      end);
                            ("snippet", match lookup "snippet" d with
                                        | Some v => v
                                        | None => JStr EmptyString
                                        end) ])
         (firstn (Z.to_nat (MAX_SEARCH_RESULTS cfg)) entries) rs.
Proof.
  intros Hkey Hne Hmax Hget Hstatus Hdec Hlook Hsome Hobj.
  rewrite (search_topic_answered cfg env topic t key r Hkey Hne Hget).
  cbv zeta. rewrite Hstatus, Hdec. cbn [Z.eqb Pos.eqb].
  set (n := Z.to_nat (MAX_SEARCH_RESULTS cfg)) in *.
  assert (Hslice : firstn (slice_count (List.length entries) (MAX_SEARCH_RESULTS cfg)) entries
                   = firstn n entries).
  { unfold slice_count. destruct (Z.leb_spec 0 (MAX_SEARCH_RESULTS cfg)); [|lia].
    fold n. destruct (Nat.le_ge_cases (List.length entries) n) as [L|L].
    - rewrite Nat.min_l by assumption.
      rewrite !firstn_all2; auto.
    - now rewrite Nat.min_r by assumption. }
  assert (Hex : extract_results cfg (JObj fields)
                = rmap normalize (firstn n entries)).
  { unfold extract_results, contains_key, getitem_key, slice_items.
    rewrite Hlook. cbn [rbind]. now rewrite Hslice. }
  rewrite Hex.
  destruct (rmap_total normalize (firstn n entries)) as [rs Hrs].
  { revert Hobj. apply Forall_impl. intros entry [d ->]. apply normalize_object. }
  rewrite Hrs.
  pose proof (rmap_Forall2 _ _ _ Hrs) as HF.
  assert (Hlen : List.length rs = List.length (firstn n entries))
    by (symmetry; eapply Forall2_length; eassumption).
  assert (Hn : (1 <= n)%nat) by (unfold n; lia).
  destruct rs as [|r1 rs].
  - exfalso. destruct entries as [|e es]; [congruence|].
    destruct n; [lia|]. cbn in Hlen. discriminate.
  - exists (r1 :: rs). cbn [fst]. repeat split.
    + discriminate.
    + rewrite Hlen. pose proof (firstn_le_length n entries). unfold n in *. lia.
    + revert HF. apply Forall2_impl. intros entry rec Hn'.
      now apply normalize_inv.
Qed.

(** Three entries under a maximum of two: the first two, in order, the
    missing snippet of the first as the empty string. *)
Lemma search_topic_normalizes_witness :
  fst (search_topic MoreSimulated.cfg_two_results MoreSimulated.env_three_results
         "AI trends 2025" [])
  = Return [ [ ("title", JStr "first"); ("snippet", JStr EmptyString) ];
             [ ("title", JStr "second"); ("snippet", JStr "two") ] ].
Proof.
  destruct (search_topic_normalizes
              MoreSimulated.cfg_two_results MoreSimulated.env_three_results
              "AI trends 2025" [] "serp-key"
              (mk_response 200 EmptyString (inr MoreSimulated.three_results))
              [ ("organic_results",
                 JArr [ JObj [ ("title", JStr "first") ];
                        JObj [ ("title", JStr "second"); ("snippet", JStr "two") ];
                        JObj [ ("snippet", JStr "three") ] ]) ]
              [ JObj [ ("title", JStr "first") ];
                JObj [ ("title", JStr "second"); ("snippet", JStr "two") ];
                JObj [ ("snippet", JStr "three") ] ])
    as (rs & E & _ & _ & F).
  - reflexivity.
  - discriminate.
  - reflexivity.
  - reflexivity.
  - reflexivity.
  - reflexivity.
  - reflexivity.
  - discriminate.
  - repeat constructor; eexists; reflexivity.
  - rewrite E. f_equal.
    change (firstn (Z.to_nat (MAX_SEARCH_RESULTS MoreSimulated.cfg_two_results))
              [ JObj [ ("title", JStr "first") ];
                JObj [ ("title", JStr "second"); ("snippet", JStr "two") ];
                JObj [ ("snippet", JStr "three") ] ])
      with [ JObj [ ("title", JStr "first") ];
             JObj [ ("title", JStr "second"); ("snippet", JStr "two") ] ] in F.
    inversion F as [|e1 r1 es1 rs1 (d1 & D1 & R1) F1]; subst.
    inversion F1 as [|e2 r2 es2 rs2 (d2 & D2 & R2) F2]; subst.
    inversion F2; subst.
    injection D1 as <-. injection D2 as <-. reflexivity.
Defined.

(** C6.  The no-results failure.  The credential is configured and the
    provider answers 200 with a body that decodes.  Whenever normalisation
    yields a list, [search_topic] raises [No search results found] if that
    list is empty and returns the list otherwise; when normalisation fails,
    [search_topic] raises that failure, which is of another class; and the
    list is empty both when the body has no [organic_results] field and
    when the field is an empty list. *)
Theorem search_topic_no_results
    (cfg : Config) (env : Env) (topic : string) (t : trace)
    (key : string) (r : response) (data : json) :
  SERPAPI_KEY cfg = Some key ->
  key <> EmptyString ->
  serve_get env (t ++ [SearchCall topic]) (search_request cfg key topic) = Answered r ->
  status_code r = 200%Z ->
  decoded r = inr data ->
  (forall normalized,
      extract_results cfg data = Return normalized ->
      (normalized = [] ->
       fst (search_topic cfg env topic t)
       = Raise (mk_exn PlainException "No search results found"))
      /\ (normalized <> [] ->
          fst (search_topic cfg env topic t) = Return normalized))
  /\ (forall e,
         extract_results cfg data = Raise e ->
         fst (search_topic cfg env topic t) = Raise e
         /\ exn_cls e <> PlainException)
  /\ (forall fields,
         data = JObj fields ->
         lookup "organic_results" fields = None
         \/ lookup "organic_results" fields = Some (JArr []) ->
         extract_results cfg data = Return []).
Proof.
  intros Hkey Hne Hget Hstatus Hdec.
  rewrite (search_topic_answered cfg env topic t key r Hkey Hne Hget).
  cbv zeta. rewrite Hstatus, Hdec. cbn [Z.eqb Pos.eqb].
  split; [|split].
  - intros normalized ->. split.
    + intros ->. reflexivity.
    + intros Hne'. destruct normalized; [congruence | reflexivity].
  - intros e He. split; [now rewrite He|].
    now apply (extract_results_error cfg data).
  - intros fields -> [H|H]; unfold extract_results, contains_key, getitem_key;
      rewrite H; cbn [rbind]; [reflexivity|].
    unfold slice_items. now rewrite firstn_nil.
Qed.

Lemma search_topic_no_results_witness :
  fst (search_topic sample_cfg env_no_results "AI trends 2025" [])
  = Raise (mk_exn PlainException "No search results found").
Proof.
  refine (proj1 (proj1 (search_topic_no_results sample_cfg env_no_results
                          "AI trends 2025" [] "serp-key"
                          (mk_response 200 EmptyString
                             (inr (JObj [ ("search_information",
                                           JObj [ ("total_results", JInt 0) ]) ])))
                          _ _ _ _ _ _) [] _) _);
    first [reflexivity | discriminate].
Defined.

(** C7.  The prompts.  For results that each hold a title and a snippet, the
    context is built without failure; the summary prompt is not empty and
    holds the topic verbatim; the post prompt is not empty and holds the
    topic and the summary verbatim, for every topic and summary, the empty
    ones included; and whatever the configuration, the providers and the
    history, the first prompt [generate_linkedin_post] sends is the summary
    prompt of the topic and the context, and any other prompt it sends is
    the post prompt of the topic and a text a completion call returned. *)
Theorem prompts_are_pure_and_total
    (render : json -> string) (topic : string) (rs : list dict) :
  Forall (fun r => lookup "title" r <> None /\ lookup "snippet" r <> None) rs ->
  exists context,
    build_context render rs = Return context
    /\ summary_prompt topic context <> EmptyString
    /\ contains topic (summary_prompt topic context)
    /\ (forall summary,
           post_prompt topic summary <> EmptyString
           /\ contains topic (post_prompt topic summary)
           /\ contains summary (post_prompt topic summary))
    /\ (forall cfg env t,
           exists es,
             snd (generate_linkedin_post render cfg env topic rs t)
             = t ++ CompletionCall (summary_prompt topic context) :: es
             /\ forall p, In (CompletionCall p) es ->
                  exists summary,
                    In (CompletionReturn summary) es
                    /\ p = post_prompt topic summary).
Proof.
  intros Hrs.
  destruct (build_context_total render rs Hrs) as [context Hc].
  exists context. split; [exact Hc|].
  split; [apply summary_prompt_nonempty|].
  split; [apply summary_prompt_contains_topic|].
  split.
  - intros summary. split; [apply post_prompt_nonempty|].
    split; [apply post_prompt_contains_topic|].
    apply post_prompt_contains_summary.
  - intros cfg env t. now apply generate_prompts.
Qed.

Lemma prompts_are_pure_and_total_witness :
  exists context,
    build_context sample_render
      [ [ ("title", JStr EmptyString); ("snippet", JStr EmptyString) ] ]
    = Return context
    /\ summary_prompt EmptyString context <> EmptyString
    /\ contains EmptyString (summary_prompt EmptyString context)
    /\ (forall summary,
           post_prompt EmptyString summary <> EmptyString
           /\ contains EmptyString (post_prompt EmptyString summary)
           /\ contains summary (post_prompt EmptyString summary))
    /\ (forall cfg env t,
           exists es,
             snd (generate_linkedin_post sample_render cfg env EmptyString
                    [ [ ("title", JStr EmptyString); ("snippet", JStr EmptyString) ] ] t)
             = t ++ CompletionCall (summary_prompt EmptyString context) :: es
             /\ forall p, In (CompletionCall p) es ->
                  exists summary,
                    In (CompletionReturn summary) es
                    /\ p = post_prompt EmptyString summary).
Proof.
  apply (prompts_are_pure_and_total sample_render EmptyString
           [ [ ("title", JStr EmptyString); ("snippet", JStr EmptyString) ] ]).
  repeat constructor; discriminate.
Defined.

(** C8.  The search provider answers with a status other than 200 (the
    topic is not blank and the search credential is configured).  Then
    [process_topic] returns a text that starts with [Error: ] and holds the
    status code, and the run has no call of [_call_groq_api] and no request
    to the language-model provider. *)
Theorem search_upstream_failure
    (render : json -> string) (cfg : Config) (env : Env)
    (topic key : string) (r : response) :
  strip topic <> EmptyString ->
  SERPAPI_KEY cfg = Some key ->
  key <> EmptyString ->
  serve_get env [Progress 10 "Starting search..."; SearchCall topic]
    (search_request cfg key topic) = Answered r ->
  status_code r <> 200%Z ->
  exists out run,
    process_topic render cfg env topic [] = (Return out, run)
    /\ out = ("Error: SerpAPI request failed with status code "
                ++ str_of_int (status_code r) ++ ": " ++ text r)%string
    /\ starts_with "Error: " out
    /\ contains (str_of_int (status_code r)) out
    /\ existsb is_completion_call run = false
    /\ existsb is_http_post run = false.
Proof.
  intros Hne Hkey Hk Hget Hstatus.
  rewrite process_topic_unfold by assumption.
  rewrite pipeline_unfold. cbn [app].
  rewrite (search_topic_answered cfg env topic
             [Progress 10 "Starting search..."] key r Hkey Hk Hget).
  cbv zeta. apply Z.eqb_neq in Hstatus. rewrite Hstatus.
  cbn [exn_str app].
  eexists _, _. split; [reflexivity|].
  split; [reflexivity|].
  split; [eexists; reflexivity|].
  split; [|split; reflexivity].
  apply contains_app_r, contains_app_r, contains_app_l, contains_refl.
Qed.

Lemma search_upstream_failure_witness :
  exists out run,
    process_topic sample_render sample_cfg env_search_500 "AI trends 2025" []
    = (Return out, run)
    /\ out = "Error: SerpAPI request failed with status code 500: Internal Server Error"%string
    /\ starts_with "Error: " out
    /\ contains "500" out
    /\ existsb is_completion_call run = false
    /\ existsb is_http_post run = false.
Proof.
  apply (search_upstream_failure sample_render sample_cfg env_search_500
           "AI trends 2025" "serp-key"
           (mk_response 500 "Internal Server Error"
              (inl "Expecting value: line 1 column 1 (char 0)"%string))).
  - vm_compute. discriminate.
  - reflexivity.
  - discriminate.
  - reflexivity.
  - discriminate.
Defined.

(** C9.  The language-model provider answers the first completion request of
    the run with status 200 and an object without [choices] (the topic is
    not blank, the search succeeded, the credential is configured).  Then
    [process_topic] returns a text that starts with [Error: ]; exactly one
    request was posted and exactly one completion call made, both with the
    summary prompt; and no completion call carries a post prompt. *)
Theorem malformed_completion_response
    (render : json -> string) (cfg : Config) (env : Env)
    (topic key : string) (rs : list dict) (t1 : trace)
    (r : response) (fields : dict) :
  strip topic <> EmptyString ->
  search_topic cfg env topic [Progress 10 "Starting search..."] = (Return rs, t1) ->
  GROQ_API_KEY cfg = Some key ->
  key <> EmptyString ->
  (forall t rq, existsb is_http_post t = false -> serve_post env t rq = Answered r) ->
  status_code r = 200%Z ->
  decoded r = inr (JObj fields) ->
  lookup "choices" fields = None ->
  exists context out run,
    build_context render rs = Return context
    /\ process_topic render cfg env topic [] = (Return out, run)
    /\ starts_with "Error: " out
    /\ filter is_http_post run
       = [HttpPost (completion_request cfg key (summary_prompt topic context))]
    /\ filter is_completion_call run
       = [CompletionCall (summary_prompt topic context)]
    /\ forall summary, ~ In (CompletionCall (post_prompt topic summary)) run.
Proof.
  intros Hne Hs Hkey Hk Hpost Hstatus Hdec Hno.
  destruct (context_of_search_results render cfg env topic _ t1 rs Hs)
    as (context & Hc).
  destruct (search_topic_trace cfg env topic [Progress 10 "Starting search..."])
    as (es & E & S & _).
  rewrite Hs in E. cbn [snd app] in E. subst t1.
  destruct (silent_filters es S) as (F1 & F2 & F3).
  exists context.
  rewrite process_topic_unfold by assumption.
  rewrite pipeline_unfold. cbn [app]. rewrite Hs.
  rewrite generate_unfold, Hc.
  rewrite (completion_answered cfg env _ _ key r Hkey Hk).
  2:{ apply Hpost. rewrite !existsb_app. cbn [existsb is_http_post].
      now rewrite F3. }
  cbv zeta. rewrite Hstatus, Hdec. cbn [Z.eqb Pos.eqb].
  unfold extract_content, getitem_key. rewrite Hno. cbn [rbind].
  eexists _, _. split; [reflexivity|]. split; [reflexivity|].
  split; [eexists; reflexivity|].
  assert (Hc' : filter is_completion_call
                  ((Progress 10 "Starting search..." :: SearchCall topic :: es)
                     ++ [Progress 40 "Analyzing search results..."])
                = []).
  { rewrite filter_app. cbn [filter is_completion_call]. now rewrite F1. }
  assert (Hcalls : filter is_completion_call
                     (((Progress 10 "Starting search..." :: SearchCall topic :: es)
                         ++ [Progress 40 "Analyzing search results..."])
                        ++ [CompletionCall (summary_prompt topic context);
                            HttpPost (completion_request cfg key
                                        (summary_prompt topic context))])
                   = [CompletionCall (summary_prompt topic context)]).
  { rewrite filter_app, Hc'. reflexivity. }
  split; [|split].
  - rewrite !filter_app. cbn [filter is_http_post]. now rewrite F2.
  - exact Hcalls.
  - intros summary Hin.
    assert (Hin' : In (CompletionCall (post_prompt topic summary))
                     [CompletionCall (summary_prompt topic context)]).
    { rewrite <- Hcalls. apply filter_In. now split. }
    destruct Hin' as [E|[]].
    apply (f_equal (fun e => match e with
                             | CompletionCall p => p
                             | _ => EmptyString
                             end)) in E.
    now apply summary_prompt_is_not_post_prompt in E.
Qed.

Lemma malformed_completion_response_witness :
  exists context out run,
    build_context sample_render
      [ [ ("title", JStr "AI in 2025");
          ("snippet", JStr "Generative AI adoption grows") ] ]
    = Return context
    /\ process_topic sample_render sample_cfg env_no_choices "AI trends 2025" []
       = (Return out, run)
    /\ starts_with "Error: " out
    /\ filter is_http_post run
       = [HttpPost (completion_request sample_cfg "groq-key"
                      (summary_prompt "AI trends 2025" context))]
    /\ filter is_completion_call run
       = [CompletionCall (summary_prompt "AI trends 2025" context)]
    /\ forall summary,
         ~ In (CompletionCall (post_prompt "AI trends 2025" summary)) run.
Proof.
  eapply (malformed_completion_response sample_render sample_cfg env_no_choices
            "AI trends 2025" "groq-key" _ _
            (mk_response 200 EmptyString
               (inr (JObj [ ("error", JStr "model overloaded") ])))
            [ ("error", JStr "model overloaded") ]).
  - vm_compute. discriminate.
  - reflexivity.
  - reflexivity.
  - discriminate.
  - intros t rq _. reflexivity.
  - reflexivity.
  - reflexivity.
  - reflexivity.
Defined.

(** C10.  What [search_topic] returns.  A returned list comes from the
    provider's answer: an object whose [organic_results] is a list, and the
    records are, one for one and in order, made from the entries at the
    front of that list.  Each such entry is an object, and its record holds
    exactly the two fields [title] and [snippet], in this order: the
    entry's value where it has the field, the empty string where it has
    not, and nothing else of the entry.  On such a list the construction of
    the context in [generate_linkedin_post] does not fail. *)
Theorem search_results_shape
    (render : json -> string) (cfg : Config) (env : Env)
    (topic : string) (t t' : trace) (rs : list dict) :
  search_topic cfg env topic t = (Return rs, t') ->
  (exists key r fields organic,
      SERPAPI_KEY cfg = Some key
      /\ serve_get env (t ++ [SearchCall topic]) (search_request cfg key topic)
         = Answered r
      /\ decoded r = inr (JObj fields)
      /\ lookup "organic_results" fields = Some (JArr organic)
      /\ Forall2 (fun entry rec =>
                 exists d, entry = JObj d
                   /\ rec = [ ("title", match lookup "title" d with
                                        | Some v => v
                                        | None => JStr EmptyString
                                        end);
                              ("snippet", match lookup "snippet" d with
                                          | Some v => v
                                          | None => JStr EmptyString
                                          end) ])
           (firstn (List.length rs) organic) rs)
  /\ Forall (fun rec => keys rec = ["title"; "snippet"]) rs
  /\ exists context, build_context render rs = Return context.
Proof.
  intros H.
  destruct (search_topic_return_inv cfg env topic t t' rs H)
    as (key & r & data & K & _ & G & _ & D & X & Hne).
  destruct (extract_results_return_inv cfg data rs X Hne)
    as (fields & organic & -> & L & N).
  pose proof (rmap_Forall2 _ _ _ N) as HF.
  apply (Forall2_impl _ normalize_inv) in HF.
  split; [|split].
  - exists key, r, fields, organic. now repeat split.
  - clear -HF. induction HF as [|entry rec es rs' (d & _ & ->) _ IH];
      constructor; [reflexivity | exact IH].
  - eapply context_of_search_results; eassumption.
Qed.

(** Three entries, of which the first has no snippet and the last no
    title. *)
Lemma search_results_shape_witness :
  (exists key r fields organic,
      SERPAPI_KEY sample_cfg = Some key
      /\ serve_get MoreSimulated.env_three_results [SearchCall "AI trends 2025"]
           (search_request sample_cfg key "AI trends 2025")
         = Answered r
      /\ decoded r = inr (JObj fields)
      /\ lookup "organic_results" fields = Some (JArr organic)
      /\ Forall2 (fun entry rec =>
                 exists d, entry = JObj d
                   /\ rec = [ ("title", match lookup "title" d with
                                        | Some v => v
                                        | None => JStr EmptyString
                                        end);
                              ("snippet", match lookup "snippet" d with
                                          | Some v => v
                                          | None => JStr EmptyString
                                          end) ])
           (firstn 3 organic)
           [ [ ("title", JStr "first"); ("snippet", JStr EmptyString) ];
             [ ("title", JStr "second"); ("snippet", JStr "two") ];
             [ ("title", JStr EmptyString); ("snippet", JStr "three") ] ])
  /\ Forall (fun rec => keys rec = ["title"; "snippet"]%string)
       [ [ ("title", JStr "first"); ("snippet", JStr EmptyString) ];
         [ ("title", JStr "second"); ("snippet", JStr "two") ];
         [ ("title", JStr EmptyString); ("snippet", JStr "three") ] ]
  /\ exists context,
       build_context sample_render
         [ [ ("title", JStr "first"); ("snippet", JStr EmptyString) ];
           [ ("title", JStr "second"); ("snippet", JStr "two") ];
           [ ("title", JStr EmptyString); ("snippet", JStr "three") ] ]
       = Return context.
Proof.
  exact (search_results_shape sample_render sample_cfg
           MoreSimulated.env_three_results "AI trends 2025" []
           (snd (search_topic sample_cfg MoreSimulated.env_three_results
                   "AI trends 2025" []))
           [ [ ("title", JStr "first"); ("snippet", JStr EmptyString) ];
             [ ("title", JStr "second"); ("snippet", JStr "two") ];
             [ ("title", JStr EmptyString); ("snippet", JStr "three") ] ]
           eq_refl).
Defined.

(* ================================================================== *)
(** ** Further facts: trimming, complete case analyses, bounds *)

Import Wire MoreSimulated.

Module StripFacts.

Lemma prefix_split (w s : string) :
  prefix w s = true -> s = (w ++ drop (length w) s)%string.
Proof.
  revert s. induction w as [|c w IH]; intros s H.
  - reflexivity.
  - destruct s as [|c' s]; cbn [prefix] in H; [discriminate|].
    destruct (ascii_dec c c') as [<-|]; [|discriminate].
    cbn. f_equal. now apply IH.
Qed.

Lemma prefix_append (w r : string) : prefix w (w ++ r)%string = true.
Proof.
  induction w as [|c w IH]; cbn.
  - now destruct r.
  - destruct (ascii_dec c c); [exact IH | contradiction].
Qed.

Lemma drop_one_some (ws : list string) (s r : string) :
  drop_one ws s = Some r -> exists w, In w ws /\ s = (w ++ r)%string.
Proof.
  induction ws as [|w ws IH]; cbn [drop_one]; [discriminate|].
  destruct (prefix w s) eqn:P.
  - intros H. injection H as <-. exists w. split; [now left|].
    now apply prefix_split.
  - intros H. destruct (IH H) as (w' & Hin & E). exists w'. split; [now right | exact E].
Qed.

Lemma drop_one_none (ws : list string) (s w : string) :
  drop_one ws s = None -> In w ws -> prefix w s = false.
Proof.
  induction ws as [|w' ws IH]; cbn [drop_one In]; [tauto|].
  destruct (prefix w' s) eqn:P; [discriminate|].
  intros H [<-|Hin]; auto.
Qed.

Lemma concat_cons (c : string) (cs : list string) :
  concat EmptyString (c :: cs) = (c ++ concat EmptyString cs)%string.
Proof. destruct cs; cbn; [now rewrite append_empty_r | reflexivity]. Qed.

Lemma concat_join (a b : list string) :
  concat EmptyString (a ++ b)
  = (concat EmptyString a ++ concat EmptyString b)%string.
Proof.
  induction a as [|c a IH].
  - reflexivity.
  - cbn [app]. rewrite !concat_cons, IH. now rewrite append_assoc.
Qed.

(** What the scan removed is a run of the characters it looks for. *)
Lemma lstrip_loop_split (ws : list string) (n : nat) (s : string) :
  exists cs,
    Forall (fun c => In c ws) cs
    /\ s = (concat EmptyString cs ++ lstrip_loop n ws s)%string.
Proof.
  revert s. induction n as [|n IH]; intros s; cbn [lstrip_loop].
  - exists []. split; [constructor | reflexivity].
  - destruct (drop_one ws s) as [r|] eqn:D.
    + destruct (drop_one_some ws s r D) as (w & Hin & ->).
      destruct (IH r) as (cs & Hcs & E).
      exists (w :: cs). split; [now constructor|].
      rewrite concat_cons, append_assoc. now rewrite <- E.
    + exists []. split; [constructor | reflexivity].
Qed.

(** With enough fuel the scan stops where none of the characters leads. *)
Lemma lstrip_loop_done (ws : list string) (n : nat) (s : string) :
  (forall w, In w ws -> 1 <= length w) ->
  length s <= n ->
  drop_one ws (lstrip_loop n ws s) = None.
Proof.
  intros Hws. revert s. induction n as [|n IH]; intros s Hn; cbn [lstrip_loop].
  - destruct s; cbn in Hn; [|lia].
    clear Hn. induction ws as [|w ws IHws]; [reflexivity|].
    cbn [drop_one]. pose proof (Hws w (or_introl eq_refl)) as Hw.
    destruct w; cbn in Hw; [lia|]. cbn [prefix].
    apply IHws. intros w' Hin. apply Hws. now right.
  - destruct (drop_one ws s) as [r|] eqn:D; [|exact D].
    destruct (drop_one_some ws s r D) as (w & Hin & ->).
    apply IH. rewrite length_append in Hn. specialize (Hws w Hin). lia.
Qed.

Lemma rev_app (a b : string) : rev (a ++ b) = (rev b ++ rev a)%string.
Proof.
  induction a as [|c a IH]; cbn.
  - now rewrite append_empty_r.
  - now rewrite IH, append_assoc.
Qed.

Lemma rev_rev (a : string) : rev (rev a) = a.
Proof.
  induction a as [|c a IH]; cbn; [reflexivity|].
  rewrite rev_app, IH. reflexivity.
Qed.

Lemma length_rev (a : string) : length (rev a) = length a.
Proof.
  induction a as [|c a IH]; cbn; [reflexivity|].
  rewrite length_append, IH. cbn. lia.
Qed.

Lemma reversed_whitespace_nonempty (w : string) :
  In w (map rev whitespace) -> 1 <= length w.
Proof.
  intros H. apply in_map_iff in H as (w' & <- & Hin).
  rewrite length_rev. now apply whitespace_nonempty.
Qed.

(** [lstrip] leaves no whitespace in front. *)
Lemma lstrip_done (s : string) : drop_one whitespace (lstrip s) = None.
Proof.
  unfold lstrip. apply lstrip_loop_done; [apply whitespace_nonempty | lia].
Qed.

(** [rstrip] removes a run of whitespace characters from the end. *)
Lemma rstrip_split (x : string) :
  exists cs,
    Forall (fun c => In c whitespace) cs
    /\ x = (rstrip x ++ concat EmptyString cs)%string.
Proof.
  unfold rstrip.
  destruct (lstrip_loop_split (map rev whitespace) (length x) (rev x))
    as (cs & Hcs & E).
  exists (List.rev (map rev cs)). split.
  - apply Forall_rev. apply Forall_map. revert Hcs. apply Forall_impl.
    intros c Hc. apply in_map_iff in Hc as (w & <- & Hin).
    now rewrite rev_rev.
  - apply (f_equal rev) in E. rewrite rev_rev, rev_app in E.
    rewrite E at 1. f_equal.
    clear. induction cs as [|c cs IH]; [reflexivity|].
    rewrite concat_cons, rev_app, IH. cbn [map List.rev].
    rewrite concat_join. cbn [concat]. reflexivity.
Qed.

Lemma rstrip_done (x : string) :
  drop_one (map rev whitespace) (rev (rstrip x)) = None.
Proof.
  unfold rstrip. rewrite rev_rev.
  apply lstrip_loop_done; [apply reversed_whitespace_nonempty|].
  rewrite length_rev. lia.
Qed.

Lemma strip_trimmed (s : string) : trimmed (strip s).
Proof.
  intros w Hw. unfold strip. split.
  - intros (rest & E).
    destruct (rstrip_split (lstrip s)) as (cs & _ & Ex).
    rewrite E, append_assoc in Ex.
    pose proof (drop_one_none _ _ w (lstrip_done s) Hw) as P.
    rewrite Ex, prefix_append in P. discriminate P.
  - intros (before & E).
    pose proof (drop_one_none _ _ (rev w) (rstrip_done (lstrip s))
                  (in_map rev _ _ Hw)) as P.
    rewrite E, rev_app, prefix_append in P. discriminate P.
Qed.

(** [strip] gives the empty string on blank strings only. *)
Lemma strip_empty_blank (s : string) :
  strip s = EmptyString -> all_whitespace s.
Proof.
  unfold strip. intros H.
  destruct (rstrip_split (lstrip s)) as (cs & Hcs & Ex).
  rewrite H in Ex. cbn [append] in Ex.
  assert (L : lstrip s = EmptyString).
  { destruct cs as [|c cs]; [exact Ex|].
    exfalso. inversion Hcs as [|c' cs' Hc _]; subst.
    pose proof (lstrip_done s) as D.
    rewrite Ex, concat_cons, (drop_one_whitespace c _ Hc) in D. discriminate D. }
  unfold lstrip in L.
  destruct (lstrip_loop_split whitespace (length s) s) as (cs' & Hcs' & E).
  rewrite L, append_empty_r in E. now exists cs'.
Qed.

End StripFacts.
Import StripFacts.

Module EventFacts.

Section Events.
Variable render : json -> string.
Variable cfg : Config.
Variable env : Env.

(** Every way [search_topic] can end, with what it leaves in the
    history. *)
Lemma search_topic_events (topic : string) (t : trace) :
  (exists e,
      search_topic cfg env topic t = (Raise e, t ++ [SearchCall topic])
      /\ e = mk_exn ValueError "SerpAPI key is not configured"
      /\ (SERPAPI_KEY cfg = None \/ SERPAPI_KEY cfg = Some EmptyString))
  \/ (exists k e,
         configured (SERPAPI_KEY cfg) k
         /\ search_topic cfg env topic t
            = (Raise e, t ++ [SearchCall topic; HttpGet (search_request cfg k topic)]))
  \/ (exists k rs,
         configured (SERPAPI_KEY cfg) k
         /\ search_topic cfg env topic t
            = (Return rs,
               t ++ [SearchCall topic; HttpGet (search_request cfg k topic);
                     SearchReturn rs])).
Proof.
  unfold configured.
  destruct (SERPAPI_KEY cfg) as [k|] eqn:K.
  2:{ left. eexists. split; [|split; [reflexivity | now left]].
      unfold_m. rewrite K. reflexivity. }
  destruct (String.eqb_spec k EmptyString) as [->|Hk].
  { left. eexists. split; [|split; [reflexivity | now right]].
    unfold_m. rewrite K. reflexivity. }
  right.
  assert (G : forall r,
             serve_get env (t ++ [SearchCall topic]) (search_request cfg k topic)
             = Answered r -> _) by (intros r; exact (search_topic_answered cfg env topic t k r K Hk)).
  destruct (serve_get env (t ++ [SearchCall topic]) (search_request cfg k topic))
    as [msg|r] eqn:Hget.
  - left. exists k. eexists. split; [now split|].
    unfold_m. rewrite K.
    destruct (String.eqb_spec k EmptyString) as [E|_]; [contradiction|].
    rewrite Hget, <- app_assoc. reflexivity.
  - rewrite (G r eq_refl). cbv zeta.
    destruct (status_code r =? 200)%Z;
      [|left; exists k; eexists; split; [now split | reflexivity]].
    destruct (decoded r) as [msg|data];
      [left; exists k; eexists; split; [now split | reflexivity]|].
    destruct (extract_results cfg data) as [[|r1 rs]|e].
    + left. exists k. eexists. split; [now split | reflexivity].
    + right. exists k, (r1 :: rs). split; [now split|].
      rewrite <- app_assoc. reflexivity.
    + left. exists k. eexists. split; [now split | reflexivity].
Qed.

(** Every way [_call_groq_api] can end. *)
Lemma completion_events (prompt : string) (t : trace) :
  (exists e,
      _call_groq_api cfg env prompt t = (Raise e, t ++ [CompletionCall prompt])
      /\ e = mk_exn ValueError "GroqCloud API key is not configured"
      /\ (GROQ_API_KEY cfg = None \/ GROQ_API_KEY cfg = Some EmptyString))
  \/ (exists k e,
         configured (GROQ_API_KEY cfg) k
         /\ _call_groq_api cfg env prompt t
            = (Raise e,
               t ++ [CompletionCall prompt; HttpPost (completion_request cfg k prompt)]))
  \/ (exists k raw,
         configured (GROQ_API_KEY cfg) k
         /\ _call_groq_api cfg env prompt t
            = (Return (strip raw),
               t ++ [CompletionCall prompt; HttpPost (completion_request cfg k prompt);
                     CompletionReturn (strip raw)])).
Proof.
  unfold configured.
  destruct (GROQ_API_KEY cfg) as [k|] eqn:K.
  2:{ left. eexists. split; [|split; [reflexivity | now left]].
      unfold_m. rewrite K. reflexivity. }
  destruct (String.eqb_spec k EmptyString) as [->|Hk].
  { left. eexists. split; [|split; [reflexivity | now right]].
    unfold_m. rewrite K. reflexivity. }
  right.
  assert (G : forall r,
             serve_post env (t ++ [CompletionCall prompt])
               (completion_request cfg k prompt) = Answered r -> _)
    by (intros r; exact (completion_answered cfg env prompt t k r K Hk)).
  destruct (serve_post env (t ++ [CompletionCall prompt])
              (completion_request cfg k prompt)) as [msg|r] eqn:Hpost.
  - left. exists k. eexists. split; [now split|].
    unfold_m. rewrite K.
    destruct (String.eqb_spec k EmptyString) as [E|_]; [contradiction|].
    rewrite Hpost, <- app_assoc. reflexivity.
  - rewrite (G r eq_refl). cbv zeta.
    destruct (status_code r =? 200)%Z;
      [|left; exists k; eexists; split; [now split | reflexivity]].
    destruct (decoded r) as [msg|data];
      [left; exists k; eexists; split; [now split | reflexivity]|].
    destruct (extract_content data) as [c|e] eqn:X.
    + right. exists k.
      assert (S : exists raw, c = strip raw).
      { unfold extract_content in X.
        destruct (getitem_key data "choices") as [v1|]; cbn [rbind] in X;
          [|discriminate].
        destruct (getitem_first v1) as [v2|]; cbn [rbind] in X; [|discriminate].
        destruct (getitem_key v2 "message") as [v3|]; cbn [rbind] in X;
          [|discriminate].
        destruct (getitem_key v3 "content") as [v4|]; cbn [rbind] in X;
          [|discriminate].
        destruct v4; cbn in X; try discriminate X.
        injection X as <-. now eexists. }
      destruct S as [raw ->]. exists raw. split; [now split|].
      rewrite <- app_assoc. reflexivity.
    + left. exists k. eexists. split; [now split | reflexivity].
Qed.

End Events.
End EventFacts.
Import EventFacts.

Module CaseFacts.

Lemma configured_unique (key : option string) (k k' : string) :
  configured key k -> configured key k' -> k = k'.
Proof. intros [E _] [E' _]. congruence. Qed.

Lemma configured_not_missing (key : option string) (k : string) :
  configured key k -> key = None \/ key = Some EmptyString -> False.
Proof. intros [E Hk] [N|N]; rewrite E in N; [discriminate | injection N as ->; now apply Hk]. Qed.

Section Cases.
Variable render : json -> string.
Variable cfg : Config.
Variable env : Env.

(** The histories of the [try] block of [process_topic], all of them. *)
Lemma pipeline_cases (topic : string) :
  let p10 := Progress 10 "Starting search..." in
  let p40 := Progress 40 "Analyzing search results..." in
  let p90 := Progress 90 "Finalizing post..." in
  let run := pipeline render cfg env topic [] in
  (exists e,
      run = (Raise e, [p10; SearchCall topic])
      /\ e = mk_exn ValueError "SerpAPI key is not configured"
      /\ (SERPAPI_KEY cfg = None \/ SERPAPI_KEY cfg = Some EmptyString))
  \/ (exists k e,
         configured (SERPAPI_KEY cfg) k
         /\ run = (Raise e, [p10; SearchCall topic;
                             HttpGet (search_request cfg k topic)]))
  \/ (exists k rs context,
         configured (SERPAPI_KEY cfg) k
         /\ rs <> []
         /\ build_context render rs = Return context
         /\ let searched := [p10; SearchCall topic;
                             HttpGet (search_request cfg k topic);
                             SearchReturn rs; p40] in
            let sp := summary_prompt topic context in
            (exists e,
                run = (Raise e, searched ++ [CompletionCall sp])
                /\ e = mk_exn ValueError "GroqCloud API key is not configured"
                /\ (GROQ_API_KEY cfg = None \/ GROQ_API_KEY cfg = Some EmptyString))
            \/ (exists g e,
                   configured (GROQ_API_KEY cfg) g
                   /\ run = (Raise e,
                             searched ++ [CompletionCall sp;
                                          HttpPost (completion_request cfg g sp)]))
            \/ (exists g raw,
                   configured (GROQ_API_KEY cfg) g
                   /\ let summary := strip raw in
                      let pp := post_prompt topic summary in
                      let summarised :=
                        searched ++ [CompletionCall sp;
                                     HttpPost (completion_request cfg g sp);
                                     CompletionReturn summary;
                                     CompletionCall pp;
                                     HttpPost (completion_request cfg g pp)] in
                      (exists e, run = (Raise e, summarised))
                      \/ (exists raw',
                             run = (Return (strip raw'),
                                    summarised ++ [CompletionReturn (strip raw');
                                                   p90])))).
Proof.
  intros p10 p40 p90 run. subst run. rewrite pipeline_unfold. cbn [app].
  fold p10. fold p40. fold p90.
  destruct (search_topic_events cfg env topic [p10])
    as [(e & -> & He & Hk) | [(k & e & Hk & ->) | (k & rs & Hk & Hs)]].
  { left. exists e. now repeat split. }
  { right. left. exists k, e. now split. }
  right. right.
  destruct (context_of_search_results render cfg env topic _ _ rs Hs)
    as (context & Hc).
  destruct (search_topic_returns cfg env topic _ _ rs Hs) as (Hrs & _).
  exists k, rs, context. split; [exact Hk|]. split; [exact Hrs|].
  split; [exact Hc|].
  rewrite Hs. cbv zeta. rewrite generate_unfold, Hc.
  cbn [app].
  set (searched := [p10; SearchCall topic; HttpGet (search_request cfg k topic);
                    SearchReturn rs; p40]).
  destruct (completion_events cfg env (summary_prompt topic context) searched)
    as [(e & -> & He & Hg) | [(g & e & Hg & ->) | (g & raw & Hg & ->)]].
  { left. exists e. now repeat split. }
  { right. left. exists g, e. now split. }
  right. right. exists g, raw. split; [exact Hg|]. cbv zeta.
  destruct (completion_events cfg env (post_prompt topic (strip raw))
              (searched ++ [CompletionCall (summary_prompt topic context);
                            HttpPost (completion_request cfg g
                                        (summary_prompt topic context));
                            CompletionReturn (strip raw)]))
    as [(e & -> & He & Hg') | [(g' & e & Hg' & ->) | (g' & raw' & Hg' & ->)]].
  - exfalso. eapply configured_not_missing; eassumption.
  - left. exists e. rewrite (configured_unique _ _ _ Hg Hg').
    rewrite <- app_assoc. reflexivity.
  - right. exists raw'. rewrite (configured_unique _ _ _ Hg Hg').
    rewrite <- !app_assoc. reflexivity.
Qed.

End Cases.
End CaseFacts.
Import CaseFacts.

Module ContentFacts.

(** [extract_content] succeeds on one shape of document only. *)
Lemma extract_content_inv (data : json) (c : string) :
  extract_content data = Return c ->
  exists fields choice others message raw,
    data = JObj fields
    /\ lookup "choices" fields = Some (JArr (JObj choice :: others))
    /\ lookup "message" choice = Some (JObj message)
    /\ lookup "content" message = Some (JStr raw)
    /\ c = strip raw.
Proof.
  unfold extract_content. intros H.
  destruct data as [| | | | |items|fields]; try discriminate H.
  cbn [getitem_key] in H.
  destruct (lookup "choices" fields) as [choices|] eqn:L1; [|discriminate H].
  cbn [rbind] in H.
  destruct choices as [| | | |s|items|fs]; try discriminate H.
  - cbn [getitem_first] in H.
    destruct (chars s); cbn [rbind getitem_key] in H; discriminate H.
  - destruct items as [|choice others]; [discriminate H|].
    cbn [getitem_first rbind] in H.
    destruct choice as [| | | | |items'|cf]; try discriminate H.
    cbn [getitem_key] in H.
    destruct (lookup "message" cf) as [message|] eqn:L2; [|discriminate H].
    cbn [rbind] in H.
    destruct message as [| | | | |items'|mf]; try discriminate H.
    cbn [getitem_key] in H.
    destruct (lookup "content" mf) as [content|] eqn:L3; [|discriminate H].
    cbn [rbind] in H.
    destruct content; try discriminate H.
    cbn [str_strip] in H. injection H as <-.
    now exists fields, cf, others, mf, s.
Qed.

End ContentFacts.
Import ContentFacts.

Module BoundFacts.

Lemma process_topic_run
    (render : json -> string) (cfg : Config) (env : Env) (topic : string) :
  snd (process_topic render cfg env topic []) = []
  \/ snd (process_topic render cfg env topic [])
     = snd (pipeline render cfg env topic []).
Proof.
  destruct (String.eqb_spec (strip topic) EmptyString) as [E|N].
  - left. unfold process_topic. now rewrite E.
  - right. rewrite (process_topic_unfold render cfg env topic [] N).
    now destruct (pipeline render cfg env topic []) as [[post|e] t'].
Qed.

Lemma rmap_length {A B : Type} (f : A -> result B) (l : list A) (l' : list B) :
  rmap f l = Return l' -> List.length l' = List.length l.
Proof.
  intros H. apply rmap_Forall2 in H. symmetry. eapply Forall2_length; eassumption.
Qed.

Lemma slice_count_le (len : nat) (stop : Z) :
  (0 <= stop)%Z -> slice_count len stop <= Z.to_nat stop.
Proof.
  intros H. unfold slice_count.
  destruct (Z.leb_spec 0 stop); [apply Nat.le_min_r | lia].
Qed.

Lemma extract_results_length (cfg : Config) (data : json) (rs : list dict) :
  extract_results cfg data = Return rs ->
  (0 <= MAX_SEARCH_RESULTS cfg)%Z ->
  List.length rs <= Z.to_nat (MAX_SEARCH_RESULTS cfg).
Proof.
  unfold extract_results. intros H Hmax.
  destruct (contains_key "organic_results" data) as [[|]|e]; cbn [rbind] in H;
    try discriminate H.
  2:{ injection H as <-. cbn. lia. }
  destruct (getitem_key data "organic_results") as [organic|e]; cbn [rbind] in H;
    [|discriminate H].
  destruct (slice_items organic (MAX_SEARCH_RESULTS cfg)) as [entries|e] eqn:S;
    cbn [rbind] in H; [|discriminate H].
  rewrite (rmap_length _ _ _ H).
  pose proof (slice_count_le) as B.
  destruct organic; cbn in S; try discriminate S; injection S as <-.
  - rewrite length_map.
    etransitivity; [apply firstn_le_length | now apply B].
  - etransitivity; [apply firstn_le_length | now apply B].
Qed.

Lemma Forall2_pick {A B : Type} (R : A -> B -> Prop) (l : list A) (l' : list B) (a : A) :
  Forall2 R l l' -> In a l -> exists b, In b l' /\ R a b.
Proof.
  induction 1 as [|x y l l' Hxy _ IH]; cbn [In]; [tauto|].
  intros [<-|Hin].
  - exists y. split; [now left | exact Hxy].
  - destruct (IH Hin) as (b & Hb & Rb). exists b. split; [now right | exact Rb].
Qed.

Lemma Forall_first {A : Type} (P : A -> Prop) (n : nat) (l : list A) :
  Forall P l -> Forall P (firstn n l).
Proof.
  intros H. revert n. induction H as [|x l Hx _ IH]; intros [|n]; cbn [firstn];
    constructor; auto.
Qed.

End BoundFacts.
Import BoundFacts.

(* ================================================================== *)
(** ** Further properties of the code *)

(** X1.  [process_topic] leaves the history empty exactly for a topic made
    of whitespace only; for every other topic the run starts with the first
    progress report and a call of [search_topic] on the topic as given, not
    trimmed. *)
Theorem process_topic_short_circuits_iff_blank
    (render : json -> string) (cfg : Config) (env : Env) (topic : string) :
  let run := snd (process_topic render cfg env topic []) in
  (run = [] <-> all_whitespace topic)
  /\ (run <> [] ->
      exists rest,
        run = Progress 10 "Starting search..." :: SearchCall topic :: rest).
Proof.
  intros run. subst run.
  destruct (String.eqb_spec (strip topic) EmptyString) as [E|N].
  - assert (R : snd (process_topic render cfg env topic []) = []).
    { unfold process_topic. now rewrite E. }
    rewrite R. split; [|congruence].
    split; [intros _; now apply strip_empty_blank | reflexivity].
  - assert (R : exists rest,
               snd (process_topic render cfg env topic [])
               = Progress 10 "Starting search..." :: SearchCall topic :: rest).
    { rewrite (process_topic_unfold render cfg env topic [] N).
      destruct (search_topic_trace cfg env topic [Progress 10 "Starting search..."])
        as (es & Es & _).
      rewrite pipeline_unfold. cbn [app] in *.
      destruct (search_topic cfg env topic _) as [[rs|e] t1]; cbn [snd] in Es;
        subst t1; [|now eexists].
      destruct (generate_trace render cfg env topic rs
                  ((Progress 10 "Starting search..." :: SearchCall topic :: es)
                     ++ [Progress 40 "Analyzing search results..."]))
        as (g & Eg & _).
      destruct (generate_linkedin_post render cfg env topic rs _) as [[gen|e] t2];
        cbn [snd] in Eg; subst t2; cbn [snd app]; now eexists. }
    destruct R as (rest & R). rewrite R. split.
    + split; [discriminate|].
      intros B. apply strip_all_whitespace in B. contradiction.
    + intros _. now exists rest.
Qed.

Lemma process_topic_short_circuits_iff_blank_witness :
  exists rest,
    snd (process_topic sample_render sample_cfg env_happy padded_topic [])
    = Progress 10 "Starting search..." :: SearchCall padded_topic :: rest.
Proof.
  apply (proj2 (process_topic_short_circuits_iff_blank
                  sample_render sample_cfg env_happy padded_topic)).
  vm_compute. discriminate.
Defined.

(** X2.  A text [_call_groq_api] returns has no whitespace character at
    either end. *)
Theorem completion_text_is_trimmed
    (cfg : Config) (env : Env) (prompt content : string) (t t' : trace) :
  _call_groq_api cfg env prompt t = (Return content, t') ->
  trimmed content.
Proof.
  intros H.
  destruct (completion_events cfg env prompt t)
    as [(e & E & _) | [(k & e & _ & E) | (k & raw & _ & E)]];
    rewrite E in H; try discriminate H.
  injection H as <- _. apply strip_trimmed.
Qed.

Lemma completion_text_is_trimmed_witness :
  trimmed "AI adoption is accelerating.".
Proof.
  apply (completion_text_is_trimmed sample_cfg env_padded
           "Summarize." "AI adoption is accelerating." []
           (snd (_call_groq_api sample_cfg env_padded "Summarize." []))).
  reflexivity.
Defined.

(** X3.  The extraction [response_data["choices"][0]["message"]["content"].strip()]
    succeeds exactly on an object whose [choices] is a list starting with an
    object, whose [message] is an object, whose [content] is a string; the
    result is that string trimmed, and the other choices are ignored. *)
Theorem extract_content_path (response_data : json) (content : string) :
  extract_content response_data = Return content
  <->
  exists fields choice others message raw,
    response_data = JObj fields
    /\ lookup "choices" fields = Some (JArr (JObj choice :: others))
    /\ lookup "message" choice = Some (JObj message)
    /\ lookup "content" message = Some (JStr raw)
    /\ content = strip raw.
Proof.
  split; [apply extract_content_inv|].
  intros (fields & choice & others & message & raw & -> & L1 & L2 & L3 & ->).
  unfold extract_content. cbn [getitem_key]. rewrite L1. cbn [rbind getitem_first getitem_key].
  rewrite L2. cbn [rbind getitem_key]. rewrite L3. reflexivity.
Qed.

Lemma extract_content_path_witness :
  extract_content
    (JObj [ ("choices",
             JArr [ JObj [ ("message", JObj [ ("content", JStr " first ") ]) ];
                    JObj [ ("message", JObj [ ("content", JStr "second") ]) ] ]) ])
  = Return "first".
Proof.
  apply (proj2 (extract_content_path _ "first")).
  exists [ ("choices",
            JArr [ JObj [ ("message", JObj [ ("content", JStr " first ") ]) ];
                   JObj [ ("message", JObj [ ("content", JStr "second") ]) ] ]) ],
         [ ("message", JObj [ ("content", JStr " first ") ]) ],
         [ JObj [ ("message", JObj [ ("content", JStr "second") ]) ] ],
         [ ("content", JStr " first ") ],
         " first "%string.
  repeat split.
Defined.

(** X4.  Whatever makes the search stage fail (credential, transport,
    status, undecodable body, no results, malformed entries), the run of
    [process_topic] on a topic that is not blank ends there: the output is
    [Error: ] and the text of the exception, no completion call was made, no
    request went to the language-model provider, and at most one went to the
    search provider. *)
Theorem search_failure_stops_the_run
    (render : json -> string) (cfg : Config) (env : Env)
    (topic : string) (e : exn) (t1 : trace) :
  strip topic <> EmptyString ->
  search_topic cfg env topic [Progress 10 "Starting search..."] = (Raise e, t1) ->
  process_topic render cfg env topic []
  = (Return ("Error: " ++ exn_str e)%string, t1)
  /\ existsb is_completion_call t1 = false
  /\ existsb is_http_post t1 = false
  /\ List.length (filter is_http_get t1) <= 1.
Proof.
  intros N Hs. split.
  - rewrite (process_topic_unfold render cfg env topic [] N).
    rewrite pipeline_unfold. cbn [app]. now rewrite Hs.
  - destruct (search_topic_events cfg env topic [Progress 10 "Starting search..."])
      as [(e' & E & _) | [(k & e' & _ & E) | (k & rs & _ & E)]];
      rewrite E in Hs; try discriminate Hs;
      injection Hs as _ <-; cbn; auto.
Qed.

Lemma search_failure_stops_the_run_witness :
  process_topic sample_render sample_cfg env_search_500 "AI trends 2025" []
  = (Return "Error: SerpAPI request failed with status code 500: Internal Server Error",
     snd (search_topic sample_cfg env_search_500 "AI trends 2025"
            [Progress 10 "Starting search..."])).
Proof.
  refine (proj1 (search_failure_stops_the_run sample_render sample_cfg env_search_500
                   "AI trends 2025"
                   (mk_exn PlainException
                      "SerpAPI request failed with status code 500: Internal Server Error")
                   _ _ _)).
  - vm_compute. discriminate.
  - reflexivity.
Defined.

(** X5.  Without a search credential ([SERPAPI_KEY] unset or empty), a run on
    a topic that is not blank reports [SerpAPI key is not configured] and
    sends no request at all. *)
Theorem no_request_without_search_credential
    (render : json -> string) (cfg : Config) (env : Env) (topic : string) :
  strip topic <> EmptyString ->
  SERPAPI_KEY cfg = None \/ SERPAPI_KEY cfg = Some EmptyString ->
  process_topic render cfg env topic []
  = (Return "Error: SerpAPI key is not configured",
     [Progress 10 "Starting search..."; SearchCall topic]).
Proof.
  intros N K.
  rewrite (process_topic_unfold render cfg env topic [] N).
  rewrite pipeline_unfold. cbn [app].
  destruct (search_topic_events cfg env topic [Progress 10 "Starting search..."])
    as [(e' & E & -> & _) | [(k & e' & C & _) | (k & rs & C & _)]].
  - rewrite E. reflexivity.
  - exfalso. eapply configured_not_missing; eassumption.
  - exfalso. eapply configured_not_missing; eassumption.
Qed.

Lemma no_request_without_search_credential_witness :
  process_topic sample_render cfg_without_keys env_happy "AI trends 2025" []
  = (Return "Error: SerpAPI key is not configured",
     [Progress 10 "Starting search..."; SearchCall "AI trends 2025"]).
Proof.
  apply (no_request_without_search_credential sample_render cfg_without_keys env_happy
           "AI trends 2025").
  - vm_compute. discriminate.
  - right. reflexivity.
Defined.

(** X6.  The completion credential is checked only when the first
    completion call is made: with [GROQ_API_KEY] unset or empty and a search
    that succeeds, the search request has been sent, the run reports
    [GroqCloud API key is not configured], and no request goes to the
    language-model provider. *)
Theorem no_post_without_completion_credential
    (render : json -> string) (cfg : Config) (env : Env)
    (topic : string) (rs : list dict) (t1 : trace) :
  strip topic <> EmptyString ->
  GROQ_API_KEY cfg = None \/ GROQ_API_KEY cfg = Some EmptyString ->
  search_topic cfg env topic [Progress 10 "Starting search..."] = (Return rs, t1) ->
  exists k context,
    configured (SERPAPI_KEY cfg) k
    /\ build_context render rs = Return context
    /\ process_topic render cfg env topic []
       = (Return "Error: GroqCloud API key is not configured",
          [ Progress 10 "Starting search...";
            SearchCall topic;
            HttpGet (search_request cfg k topic);
            SearchReturn rs;
            Progress 40 "Analyzing search results...";
            CompletionCall (summary_prompt topic context) ]).
Proof.
  intros N K Hs.
  destruct (context_of_search_results render cfg env topic _ _ rs Hs)
    as (context & Hc).
  destruct (search_topic_events cfg env topic [Progress 10 "Starting search..."])
    as [(e' & E & _) | [(k & e' & _ & E) | (k & rs' & C & E)]];
    rewrite E in Hs; try discriminate Hs.
  injection Hs as -> <-. exists k, context. split; [exact C|]. split; [exact Hc|].
  rewrite (process_topic_unfold render cfg env topic [] N).
  rewrite pipeline_unfold. cbn [app]. rewrite E.
  rewrite generate_unfold, Hc. cbn [app].
  destruct (completion_events cfg env (summary_prompt topic context)
              [ Progress 10 "Starting search..."; SearchCall topic;
                HttpGet (search_request cfg k topic); SearchReturn rs;
                Progress 40 "Analyzing search results..." ])
    as [(e' & E' & -> & _) | [(g & e' & G & _) | (g & raw & G & _)]].
  - rewrite E'. reflexivity.
  - exfalso. eapply configured_not_missing; eassumption.
  - exfalso. eapply configured_not_missing; eassumption.
Qed.

Lemma no_post_without_completion_credential_witness :
  exists k context,
    configured (SERPAPI_KEY cfg_search_only) k
    /\ build_context sample_render
         [ [ ("title", JStr "AI in 2025");
             ("snippet", JStr "Generative AI adoption grows") ] ]
       = Return context
    /\ process_topic sample_render cfg_search_only env_happy "AI trends 2025" []
       = (Return "Error: GroqCloud API key is not configured",
          [ Progress 10 "Starting search...";
            SearchCall "AI trends 2025";
            HttpGet (search_request cfg_search_only k "AI trends 2025");
            SearchReturn [ [ ("title", JStr "AI in 2025");
                             ("snippet", JStr "Generative AI adoption grows") ] ];
            Progress 40 "Analyzing search results...";
            CompletionCall (summary_prompt "AI trends 2025" context) ]).
Proof.
  apply (no_post_without_completion_credential sample_render cfg_search_only env_happy
           "AI trends 2025"
           [ [ ("title", JStr "AI in 2025");
               ("snippet", JStr "Generative AI adoption grows") ] ]
           (snd (search_topic cfg_search_only env_happy "AI trends 2025"
                   [Progress 10 "Starting search..."]))).
  - vm_compute. discriminate.
  - left. reflexivity.
  - reflexivity.
Defined.

(** X7.  The language-model provider answers the first completion request
    with a status other than 200 (after a successful search, credential
    configured).  The output is [Error: GroqCloud API request failed with
    status code], the code and the body; the run ends on that single posted
    request, with no second completion call. *)
Theorem completion_upstream_failure
    (render : json -> string) (cfg : Config) (env : Env)
    (topic g : string) (rs : list dict) (t1 : trace) (r : response) :
  strip topic <> EmptyString ->
  search_topic cfg env topic [Progress 10 "Starting search..."] = (Return rs, t1) ->
  configured (GROQ_API_KEY cfg) g ->
  (forall t rq, existsb is_http_post t = false -> serve_post env t rq = Answered r) ->
  status_code r <> 200%Z ->
  exists context,
    build_context render rs = Return context
    /\ process_topic render cfg env topic []
       = (Return ("Error: GroqCloud API request failed with status code "
                    ++ str_of_int (status_code r) ++ ": " ++ text r)%string,
          t1 ++ [ Progress 40 "Analyzing search results...";
                  CompletionCall (summary_prompt topic context);
                  HttpPost (completion_request cfg g (summary_prompt topic context)) ])
    /\ existsb is_http_post t1 = false.
Proof.
  intros N Hs [G Hg] Hpost Hstatus.
  destruct (context_of_search_results render cfg env topic _ _ rs Hs)
    as (context & Hc).
  destruct (search_topic_trace cfg env topic [Progress 10 "Starting search..."])
    as (es & E & S & _).
  rewrite Hs in E. cbn [snd app] in E.
  destruct (silent_filters es S) as (_ & _ & F3).
  assert (P : existsb is_http_post t1 = false) by (subst t1; cbn; exact F3).
  exists context. split; [exact Hc|]. split; [|exact P].
  rewrite (process_topic_unfold render cfg env topic [] N).
  rewrite pipeline_unfold. cbn [app]. rewrite Hs.
  rewrite generate_unfold, Hc.
  rewrite (completion_answered cfg env _ _ g r G Hg).
  2:{ apply Hpost. rewrite !existsb_app, P. reflexivity. }
  cbv zeta. apply Z.eqb_neq in Hstatus. rewrite Hstatus.
  rewrite <- app_assoc. reflexivity.
Qed.

Lemma completion_upstream_failure_witness :
  exists context,
    build_context sample_render
      [ [ ("title", JStr "AI in 2025");
          ("snippet", JStr "Generative AI adoption grows") ] ]
    = Return context
    /\ process_topic sample_render sample_cfg env_completion_429 "AI trends 2025" []
       = (Return "Error: GroqCloud API request failed with status code 429: Too Many Requests",
          snd (search_topic sample_cfg env_completion_429 "AI trends 2025"
                 [Progress 10 "Starting search..."])
            ++ [ Progress 40 "Analyzing search results...";
                 CompletionCall (summary_prompt "AI trends 2025" context);
                 HttpPost (completion_request sample_cfg "groq-key"
                             (summary_prompt "AI trends 2025" context)) ])
    /\ existsb is_http_post
         (snd (search_topic sample_cfg env_completion_429 "AI trends 2025"
                 [Progress 10 "Starting search..."])) = false.
Proof.
  apply (completion_upstream_failure sample_render sample_cfg env_completion_429
           "AI trends 2025" "groq-key"
           [ [ ("title", JStr "AI in 2025");
               ("snippet", JStr "Generative AI adoption grows") ] ]
           _ (mk_response 429 "Too Many Requests" (inl "Expecting value"%string))).
  - vm_compute. discriminate.
  - reflexivity.
  - split; [reflexivity | discriminate].
  - intros t rq _. reflexivity.
  - discriminate.
Defined.

(** X8.  The requests of a run of [process_topic], in order, are an initial
    part of: one request to the search provider, then two to the
    language-model provider.  Nothing is retried and nothing else is
    sent. *)
Theorem requests_of_a_run
    (render : json -> string) (cfg : Config) (env : Env) (topic : string) :
  exists g p1 p2 n,
    filter (fun e => is_http_get e || is_http_post e)
      (snd (process_topic render cfg env topic []))
    = firstn n [HttpGet g; HttpPost p1; HttpPost p2].
Proof.
  pose (dummy_get := search_request cfg EmptyString topic).
  pose (dummy_post := completion_request cfg EmptyString EmptyString).
  destruct (process_topic_run render cfg env topic) as [->| ->].
  { now exists dummy_get, dummy_post, dummy_post, 0. }
  destruct (pipeline_cases render cfg env topic)
    as [(e & -> & _)
       | [(k & e & _ & ->)
         | (k & rs & context & _ & _ & _
            & [(e & -> & _)
              | [(g & e & _ & ->)
                | (g & raw & _ & [(e & ->) | (raw' & ->)])]])]];
    cbn [snd app filter is_http_get is_http_post orb].
  - now exists dummy_get, dummy_post, dummy_post, 0.
  - now exists (search_request cfg k topic), dummy_post, dummy_post, 1.
  - now exists (search_request cfg k topic), dummy_post, dummy_post, 1.
  - eexists _, _, dummy_post, 2. reflexivity.
  - eexists _, _, _, 3. reflexivity.
  - eexists _, _, _, 3. reflexivity.
Qed.

(** X9.  When the [try] block of [process_topic] returns a post, the history
    of the run is exactly: progress, search call, its request, its return,
    progress, the completion call on the summary prompt, its request, its
    return, the completion call on the post prompt built from that return,
    its request, its return of the post, progress. *)
Theorem history_of_a_successful_run
    (render : json -> string) (cfg : Config) (env : Env)
    (topic post : string) (run : trace) :
  pipeline render cfg env topic [] = (Return post, run) ->
  exists k g rs context summary,
    configured (SERPAPI_KEY cfg) k
    /\ configured (GROQ_API_KEY cfg) g
    /\ build_context render rs = Return context
    /\ run = [ Progress 10 "Starting search...";
               SearchCall topic;
               HttpGet (search_request cfg k topic);
               SearchReturn rs;
               Progress 40 "Analyzing search results...";
               CompletionCall (summary_prompt topic context);
               HttpPost (completion_request cfg g (summary_prompt topic context));
               CompletionReturn summary;
               CompletionCall (post_prompt topic summary);
               HttpPost (completion_request cfg g (post_prompt topic summary));
               CompletionReturn post;
               Progress 90 "Finalizing post..." ].
Proof.
  intros H.
  destruct (pipeline_cases render cfg env topic)
    as [(e & E & _)
       | [(k & e & _ & E)
         | (k & rs & context & K & _ & C
            & [(e & E & _)
              | [(g & e & _ & E)
                | (g & raw & G & [(e & E) | (raw' & E)])]])]];
    rewrite E in H; try discriminate H.
  injection H as <- <-.
  now exists k, g, rs, context, (strip raw).
Qed.

Lemma history_of_a_successful_run_witness :
  exists k g rs context summary,
    configured (SERPAPI_KEY sample_cfg) k
    /\ configured (GROQ_API_KEY sample_cfg) g
    /\ build_context sample_render rs = Return context
    /\ snd (pipeline sample_render sample_cfg env_happy "AI trends 2025" [])
       = [ Progress 10 "Starting search...";
           SearchCall "AI trends 2025";
           HttpGet (search_request sample_cfg k "AI trends 2025");
           SearchReturn rs;
           Progress 40 "Analyzing search results...";
           CompletionCall (summary_prompt "AI trends 2025" context);
           HttpPost (completion_request sample_cfg g
                       (summary_prompt "AI trends 2025" context));
           CompletionReturn summary;
           CompletionCall (post_prompt "AI trends 2025" summary);
           HttpPost (completion_request sample_cfg g
                       (post_prompt "AI trends 2025" summary));
           CompletionReturn "Bhai, AI is everywhere now! #AI";
           Progress 90 "Finalizing post..." ].
Proof.
  apply (history_of_a_successful_run sample_render sample_cfg env_happy
           "AI trends 2025" "Bhai, AI is everywhere now! #AI").
  reflexivity.
Defined.

(** X10.  What a run sends.  Every request to the search provider is a GET
    of [https://serpapi.com/search] under a timeout of 30 seconds with the
    parameters [api_key] (the configured, non-empty [SERPAPI_KEY]), [q] (the
    topic as given), [google_domain], [gl], [hl] and [num]
    ([MAX_SEARCH_RESULTS]).  Every request to the language-model provider
    is a POST of the chat-completions address under a timeout of 60 seconds
    with the bearer header of the configured, non-empty [GROQ_API_KEY] and
    a body of the model, one user message holding the prompt of a
    completion call of the run, temperature 0.7 and 1024 tokens. *)
Theorem requests_are_authorised
    (render : json -> string) (cfg : Config) (env : Env) (topic : string) :
  let run := snd (process_topic render cfg env topic []) in
  Forall
    (fun e =>
       match e with
       | HttpGet rq =>
           exists k,
             SERPAPI_KEY cfg = Some k
             /\ k <> EmptyString
             /\ rq = {| get_url := "https://serpapi.com/search";
                        get_params :=
                          [ ("api_key", JStr k);
                            ("q", JStr topic);
                            ("google_domain", JStr "google.com");
                            ("gl", JStr "us");
                            ("hl", JStr "en");
                            ("num", JInt (MAX_SEARCH_RESULTS cfg)) ];
                        get_timeout := 30 |}
       | HttpPost rq =>
           exists k prompt,
             GROQ_API_KEY cfg = Some k
             /\ k <> EmptyString
             /\ In (CompletionCall prompt) run
             /\ rq = {| post_url := "https://api.groq.com/openai/v1/chat/completions";
                        post_headers :=
                          [ ("Authorization", ("Bearer " ++ k)%string);
                            ("Content-Type", "application/json"%string) ];
                        post_json :=
                          JObj [ ("model", JStr (GROQ_MODEL cfg));
                                 ("messages",
                                  JArr [ JObj [ ("role", JStr "user");
                                                ("content", JStr prompt) ] ]);
                                 ("temperature", JFloat "0.7");
                                 ("max_tokens", JInt 1024) ];
                        post_timeout := 60 |}
       | _ => True
       end)
    run.
Proof.
  intros run. subst run.
  destruct (process_topic_run render cfg env topic) as [->| ->]; [constructor|].
  destruct (pipeline_cases render cfg env topic)
    as [(e & -> & _)
       | [(k & e & K & ->)
         | (k & rs & context & K & _ & _
            & [(e & -> & _)
              | [(g & e & G & ->)
                | (g & raw & G & [(e & ->) | (raw' & ->)])]])]];
    cbn [snd app];
    repeat (apply Forall_cons;
            [first
               [ exact I
               | destruct K as [K1 K2]; exists k; repeat split; assumption
               | destruct G as [G1 G2]; eexists g, _;
                 split; [exact G1|]; split; [exact G2|];
                 split; [|reflexivity]; cbn [In]; tauto ]|]);
    apply Forall_nil.
Qed.

(** X11.  Whatever the provider answers, a list [search_topic] returns is
    not empty; it is never returned under a maximum of zero; and under a
    positive maximum it has at most that many records. *)
Theorem search_topic_result_bounds
    (cfg : Config) (env : Env) (topic : string) (t t' : trace) (rs : list dict) :
  search_topic cfg env topic t = (Return rs, t') ->
  rs <> []
  /\ MAX_SEARCH_RESULTS cfg <> 0%Z
  /\ ((0 < MAX_SEARCH_RESULTS cfg)%Z ->
      (Z.of_nat (List.length rs) <= MAX_SEARCH_RESULTS cfg)%Z).
Proof.
  intros H.
  destruct (search_topic_returns cfg env topic t t' rs H) as (Hne & data & Hd).
  split; [exact Hne|].
  assert (B : (0 <= MAX_SEARCH_RESULTS cfg)%Z ->
              List.length rs <= Z.to_nat (MAX_SEARCH_RESULTS cfg))
    by (apply extract_results_length with (data := data); exact Hd).
  split.
  - intros Z0. rewrite Z0 in B. specialize (B (Z.le_refl 0)).
    destruct rs; [congruence | cbn in B; lia].
  - intros Hpos. specialize (B (Z.lt_le_incl _ _ Hpos)). lia.
Qed.

Lemma search_topic_result_bounds_witness :
  [ [ ("title", JStr "AI in 2025");
      ("snippet", JStr "Generative AI adoption grows") ] ] <> ([] : list dict)
  /\ MAX_SEARCH_RESULTS sample_cfg <> 0%Z
  /\ ((0 < MAX_SEARCH_RESULTS sample_cfg)%Z ->
      (Z.of_nat
         (List.length
            [ [ ("title", JStr "AI in 2025");
                ("snippet", JStr "Generative AI adoption grows") ] ])
       <= MAX_SEARCH_RESULTS sample_cfg)%Z).
Proof.
  apply (search_topic_result_bounds sample_cfg env_happy "AI trends 2025" []
           (snd (search_topic sample_cfg env_happy "AI trends 2025" []))).
  reflexivity.
Defined.

(** X12.  A maximum that is not positive is taken as Python's slice bound.
    For an answer whose [organic_results] is a list of objects: under a
    maximum of zero, or a negative one that drops every entry,
    [search_topic] raises [No search results found]; under a negative
    maximum that drops fewer entries than there are, it returns the
    normalisation of all entries but the dropped last ones. *)
Theorem search_topic_nonpositive_maximum
    (cfg : Config) (env : Env) (topic : string) (t : trace)
    (key : string) (r : response) (fields : dict) (entries : list json) :
  configured (SERPAPI_KEY cfg) key ->
  serve_get env (t ++ [SearchCall topic]) (search_request cfg key topic) = Answered r ->
  status_code r = 200%Z ->
  decoded r = inr (JObj fields) ->
  lookup "organic_results" fields = Some (JArr entries) ->
  Forall (fun entry => exists d, entry = JObj d) entries ->
  (MAX_SEARCH_RESULTS cfg <= 0)%Z ->
  let dropped := Z.to_nat (- MAX_SEARCH_RESULTS cfg) in
  let keep := List.length entries - dropped in
  (dropped = 0 \/ List.length entries <= dropped ->
   fst (search_topic cfg env topic t)
   = Raise (mk_exn PlainException "No search results found"))
  /\ (0 < dropped < List.length entries ->
      exists rs,
        fst (search_topic cfg env topic t) = Return rs
        /\ List.length rs = keep
        /\ Forall2 (fun entry rec => normalize entry = Return rec)
             (firstn keep entries) rs).
Proof.
  intros [Hkey Hne] Hget Hstatus Hdec Hlook Hobj Hmax dropped keep.
  rewrite (search_topic_answered cfg env topic t key r Hkey Hne Hget).
  cbv zeta. rewrite Hstatus, Hdec. cbn [Z.eqb Pos.eqb].
  assert (Hex : extract_results cfg (JObj fields)
                = rmap normalize
                    (firstn (slice_count (List.length entries) (MAX_SEARCH_RESULTS cfg))
                       entries)).
  { unfold extract_results, contains_key, getitem_key, slice_items.
    rewrite Hlook. reflexivity. }
  rewrite Hex. clear Hex.
  assert (Hcount : slice_count (List.length entries) (MAX_SEARCH_RESULTS cfg)
                   = if Nat.eqb dropped 0 then 0 else keep).
  { unfold slice_count, keep, dropped.
    destruct (Z.leb_spec 0 (MAX_SEARCH_RESULTS cfg)) as [L|L].
    - assert (E0 : MAX_SEARCH_RESULTS cfg = 0%Z) by lia.
      rewrite E0. cbn. apply Nat.min_0_r.
    - destruct (Nat.eqb_spec (Z.to_nat (- MAX_SEARCH_RESULTS cfg)) 0); [lia|].
      reflexivity. }
  rewrite Hcount.
  split.
  - intros [D|D].
    + rewrite D. cbn. reflexivity.
    + destruct (Nat.eqb dropped 0); [reflexivity|].
      replace keep with 0 by (unfold keep; lia). reflexivity.
  - intros [D1 D2].
    destruct (Nat.eqb_spec dropped 0) as [|_]; [lia|].
    destruct (rmap_total normalize (firstn keep entries)) as [rs Hrs].
    { apply Forall_first. revert Hobj. apply Forall_impl.
      intros entry [d ->]. apply normalize_object. }
    rewrite Hrs.
    assert (L : List.length rs = keep).
    { rewrite (rmap_length _ _ _ Hrs), length_firstn. unfold keep. lia. }
    destruct rs as [|r1 rs]; [cbn in L; unfold keep in *; lia|].
    exists (r1 :: rs). cbn [fst]. split; [reflexivity|]. split; [exact L|].
    now apply rmap_Forall2.
Qed.

Lemma search_topic_nonpositive_maximum_witness :
  exists rs,
    fst (search_topic cfg_drop_last env_three_results "AI trends 2025" []) = Return rs
    /\ List.length rs = 2
    /\ Forall2 (fun entry rec => normalize entry = Return rec)
         [ JObj [ ("title", JStr "first") ];
           JObj [ ("title", JStr "second"); ("snippet", JStr "two") ] ]
         rs.
Proof.
  assert (K : configured (SERPAPI_KEY cfg_drop_last) "serp-key")
    by (split; [reflexivity | discriminate]).
  assert (O : Forall (fun entry => exists d, entry = JObj d)
                [ JObj [ ("title", JStr "first") ];
                  JObj [ ("title", JStr "second"); ("snippet", JStr "two") ];
                  JObj [ ("snippet", JStr "three") ] ])
    by (repeat (apply Forall_cons; [eexists; reflexivity|]); apply Forall_nil).
  assert (M : (MAX_SEARCH_RESULTS cfg_drop_last <= 0)%Z) by (cbn; lia).
  pose proof (search_topic_nonpositive_maximum cfg_drop_last env_three_results
                "AI trends 2025" [] "serp-key"
                (mk_response 200 EmptyString (inr three_results))
                [ ("organic_results",
                   JArr [ JObj [ ("title", JStr "first") ];
                          JObj [ ("title", JStr "second"); ("snippet", JStr "two") ];
                          JObj [ ("snippet", JStr "three") ] ]) ]
                [ JObj [ ("title", JStr "first") ];
                  JObj [ ("title", JStr "second"); ("snippet", JStr "two") ];
                  JObj [ ("snippet", JStr "three") ] ]
                K eq_refl eq_refl eq_refl eq_refl O M) as [_ H].
  apply H. cbn. lia.
Defined.

(** X13.  The block [Title: ... / Snippet: ...] of every result with a
    string title and a string snippet occurs verbatim in the context, and
    so in the summary prompt. *)
Theorem context_embeds_results
    (render : json -> string) (topic : string)
    (rs : list dict) (context : string) (r : dict) (title snippet : string) :
  build_context render rs = Return context ->
  In r rs ->
  lookup "title" r = Some (JStr title) ->
  lookup "snippet" r = Some (JStr snippet) ->
  contains ("Title: " ++ title ++ nl ++ "Snippet: " ++ snippet)%string context
  /\ contains ("Title: " ++ title ++ nl ++ "Snippet: " ++ snippet)%string
       (summary_prompt topic context).
Proof.
  intros Hc Hin Ht Hs.
  assert (C : contains ("Title: " ++ title ++ nl ++ "Snippet: " ++ snippet)%string
                context).
  { unfold build_context in Hc.
    destruct (rmap (format_result render) rs) as [blocks|e] eqn:Hb;
      cbn [rbind] in Hc; [|discriminate Hc].
    injection Hc as <-.
    apply rmap_Forall2 in Hb.
    destruct (Forall2_pick _ _ _ r Hb Hin) as (block & Hblock & Hf).
    unfold format_result, dict_item in Hf. rewrite Ht, Hs in Hf.
    cbn [rbind format_value] in Hf. injection Hf as <-.
    now apply contains_line. }
  split; [exact C|].
  eapply contains_trans; [exact C|].
  unfold summary_prompt.
  eapply contains_trans;
    [|apply contains_line; cbn [In]; do 5 right; left; reflexivity].
  apply contains_app_r, contains_refl.
Qed.

Lemma context_embeds_results_witness :
  contains ("Title: AI in 2025" ++ nl ++ "Snippet: Generative AI adoption grows")%string
    ("Title: AI in 2025" ++ nl ++ "Snippet: Generative AI adoption grows")%string
  /\ contains ("Title: AI in 2025" ++ nl ++ "Snippet: Generative AI adoption grows")%string
       (summary_prompt "AI trends 2025"
          ("Title: AI in 2025" ++ nl ++ "Snippet: Generative AI adoption grows")%string).
Proof.
  apply (context_embeds_results sample_render "AI trends 2025"
           [ [ ("title", JStr "AI in 2025");
               ("snippet", JStr "Generative AI adoption grows") ] ]
           ("Title: AI in 2025" ++ nl ++ "Snippet: Generative AI adoption grows")%string
           [ ("title", JStr "AI in 2025");
             ("snippet", JStr "Generative AI adoption grows") ]
           "AI in 2025" "Generative AI adoption grows").
  - reflexivity.
  - left. reflexivity.
  - reflexivity.
  - reflexivity.
Defined.

